(** * DataTypeWithDictionary: the dictionary-encoded column type.

    A shallow embedding of dbms/src/DataTypes/DataTypeWithDictionary.cpp
    and the properties of its construction, equality, column creation and
    (de)serialization protocol. *)

From Stdlib Require Import ZArith Lia.
From stdpp Require Import base list strings pretty functions.

Local Open Scope string_scope.

(** ** Exceptions *)

(** The error codes of [namespace ErrorCodes] (lines 16-21), and the code the
    read helpers throw with when the stream ends too early. *)
Inductive ErrorCode :=
| NUMBER_OF_ARGUMENTS_DOESNT_MATCH
| LOGICAL_ERROR
| ILLEGAL_TYPE_OF_ARGUMENT
| CANNOT_READ_ALL_DATA.

Record Exception := mkException { message : string; code : ErrorCode }.

(** The outcome of a call: a value, a thrown exception, or behaviour the
    language leaves undefined (an access out of the bounds of a column). *)
Inductive Outcome (A : Type) :=
| Ok (a : A)
| Throw (e : Exception)
| Undefined.
Arguments Ok {A} a.
Arguments Throw {A} e.
Arguments Undefined {A}.

#[global] Instance Outcome_ret : MRet Outcome := @Ok.
#[global] Instance Outcome_bind : MBind Outcome := fun A B f m =>
  match m with
  | Ok a => f a
  | Throw e => Throw e
  | Undefined => Undefined
  end.

(** ** The data types *)

(** Core/TypeListNumber.h: the closed list of numeric types. *)
Inductive NumberType :=
| UInt8 | UInt16 | UInt32 | UInt64
| Int8 | Int16 | Int32 | Int64
| Float32 | Float64.

Definition TypeListNumbers : list NumberType :=
  [UInt8; UInt16; UInt32; UInt64; Int8; Int16; Int32; Int64; Float32; Float64].

#[global] Instance NumberType_eq_dec : EqDecision NumberType.
Proof. solve_decision. Defined.

(** Modelled from the spec: the IDataType hierarchy, whose headers
    (DataTypes/IDataType.h, DataTypesNumber.h, DataTypeString.h, ...) are not
    among the sources.  The kinds the spec names are numeric, text, fixed-width
    text, date, date-time and the optional wrapper; UUID and Array stand for
    the kinds outside that set; [WithDictionary] is the Dictionary Type
    itself with its two fields. *)
Inductive IDataType :=
| DataTypeNumber (T : NumberType)
| DataTypeString
| DataTypeFixedString (n : nat)
| DataTypeDate
| DataTypeDateTime
| DataTypeUUID
| DataTypeNullable (nested_type : IDataType)
| DataTypeArray (nested : IDataType)
| WithDictionary (dictionary_type indexes_type : IDataType).

Definition DataTypeUInt8 := DataTypeNumber UInt8.
Definition DataTypeUInt16 := DataTypeNumber UInt16.
Definition DataTypeUInt32 := DataTypeNumber UInt32.
Definition DataTypeUInt64 := DataTypeNumber UInt64.

(** Modelled from the spec: the dynamic kind of a type object ([typeid]). *)
Inductive TypeId :=
| TypeId_Number (T : NumberType)
| TypeId_String
| TypeId_FixedString
| TypeId_Date
| TypeId_DateTime
| TypeId_UUID
| TypeId_Nullable
| TypeId_Array
| TypeId_WithDictionary.

#[global] Instance TypeId_eq_dec : EqDecision TypeId.
Proof. solve_decision. Defined.

Definition typeid (t : IDataType) : TypeId :=
  match t with
  | DataTypeNumber T => TypeId_Number T
  | DataTypeString => TypeId_String
  | DataTypeFixedString _ => TypeId_FixedString
  | DataTypeDate => TypeId_Date
  | DataTypeDateTime => TypeId_DateTime
  | DataTypeUUID => TypeId_UUID
  | DataTypeNullable _ => TypeId_Nullable
  | DataTypeArray _ => TypeId_Array
  | WithDictionary _ _ => TypeId_WithDictionary
  end.

(** [typeid_cast<const To *>(type)]: non-null iff the dynamic kind is [To]. *)
Definition typeid_cast (To : TypeId) (type : IDataType) : bool :=
  bool_decide (typeid type = To).

(** Modelled from the spec: the kind predicates of IDataType.  Only the four
    unsigned widths are "unsigned integer"; only the members of
    [TypeListNumbers] are "numbers" (a date is stored as a number but is its
    own kind). *)
Definition isUnsignedInteger (t : IDataType) : bool :=
  match t with
  | DataTypeNumber (UInt8 | UInt16 | UInt32 | UInt64) => true
  | _ => false
  end.

Definition isNumber (t : IDataType) : bool :=
  match t with DataTypeNumber _ => true | _ => false end.

Definition isNullable (t : IDataType) : bool :=
  match t with DataTypeNullable _ => true | _ => false end.

Definition isString (t : IDataType) : bool :=
  match t with DataTypeString => true | _ => false end.

Definition isFixedString (t : IDataType) : bool :=
  match t with DataTypeFixedString _ => true | _ => false end.

Definition isStringOrFixedString (t : IDataType) : bool :=
  isString t || isFixedString t.

Definition isDateOrDateTime (t : IDataType) : bool :=
  match t with DataTypeDate | DataTypeDateTime => true | _ => false end.

(** [static_cast<const DataTypeNullable &>(t).getNestedType()]; the cast is
    only made under [isNullable]. *)
Definition getNestedType (t : IDataType) : IDataType :=
  match t with DataTypeNullable nested_type => nested_type | _ => t end.

Definition NumberType_name (T : NumberType) : string :=
  match T with
  | UInt8 => "UInt8" | UInt16 => "UInt16" | UInt32 => "UInt32" | UInt64 => "UInt64"
  | Int8 => "Int8" | Int16 => "Int16" | Int32 => "Int32" | Int64 => "Int64"
  | Float32 => "Float32" | Float64 => "Float64"
  end.

(** Modelled from the spec: the textual name of a type, as it appears in the
    messages of the exceptions. *)
Fixpoint getName (t : IDataType) : string :=
  match t with
  | DataTypeNumber T => NumberType_name T
  | DataTypeString => "String"
  | DataTypeFixedString n => "FixedString(" +:+ pretty n +:+ ")"
  | DataTypeDate => "Date"
  | DataTypeDateTime => "DateTime"
  | DataTypeUUID => "UUID"
  | DataTypeNullable nested_type => "Nullable(" +:+ getName nested_type +:+ ")"
  | DataTypeArray nested => "Array(" +:+ getName nested +:+ ")"
  | WithDictionary d i => "WithDictionary(" +:+ getName d +:+ ", " +:+ getName i +:+ ")"
  end.

(** *** Construction (lines 23-39) *)

Definition DataTypeWithDictionary (dictionary_type_ indexes_type_ : IDataType)
  : Outcome IDataType :=
  let dictionary_type := dictionary_type_ in
  let indexes_type := indexes_type_ in
  if negb (isUnsignedInteger indexes_type) then
    Throw (mkException
             ("Index type of DataTypeWithDictionary must be unsigned integer, but got "
                +:+ getName indexes_type) ILLEGAL_TYPE_OF_ARGUMENT)
  else
    let inner_type :=
      if isNullable dictionary_type then getNestedType dictionary_type
      else dictionary_type in
    if negb (isStringOrFixedString inner_type)
       && negb (isDateOrDateTime inner_type)
       && negb (isNumber inner_type) then
      Throw (mkException
               ("DataTypeWithDictionary is supported only for numbers, strings, Date or DateTime, but got "
                  +:+ getName dictionary_type) ILLEGAL_TYPE_OF_ARGUMENT)
    else
      Ok (WithDictionary dictionary_type indexes_type).

(** *** Equality (lines 215-223) *)

(** [IDataType::equals].  The [WithDictionary] case is the method of the
    source; the other cases are modelled from the spec (structural equality:
    same kind and, where applicable, same parameters). *)
Fixpoint equals (this rhs : IDataType) : bool :=
  match this with
  | WithDictionary dictionary_type indexes_type =>
      if negb (bool_decide (typeid rhs = typeid this)) then false
      else
        match rhs with
        | WithDictionary rhs_dictionary_type rhs_indexes_type =>
            equals dictionary_type rhs_dictionary_type
            && equals indexes_type rhs_indexes_type
        | _ => false
        end
  | DataTypeNullable nested_type =>
      match rhs with
      | DataTypeNullable rhs_nested => equals nested_type rhs_nested
      | _ => false
      end
  | DataTypeArray nested =>
      match rhs with
      | DataTypeArray rhs_nested => equals nested rhs_nested
      | _ => false
      end
  | DataTypeFixedString n =>
      match rhs with
      | DataTypeFixedString m => bool_decide (n = m)
      | _ => false
      end
  | _ => bool_decide (typeid rhs = typeid this)
  end.

(** *** Column creation (lines 145-213) *)

(** The storage representations ([ColumnType] template arguments). *)
Inductive ColumnType :=
| ColumnString
| ColumnFixedString
| ColumnVector (T : NumberType).

(** Modelled from the spec: what [IDataType::createColumn] of a plain type
    returns, an empty column of the type's storage representation. *)
Inductive PlainColumn :=
| EmptyColumn (representation : ColumnType)
| EmptyColumnOf (type : IDataType).

Definition IDataType_createColumn (t : IDataType) : PlainColumn :=
  match t with
  | DataTypeNumber T => EmptyColumn (ColumnVector T)
  | DataTypeString => EmptyColumn ColumnString
  | DataTypeFixedString _ => EmptyColumn ColumnFixedString
  | DataTypeDate => EmptyColumn (ColumnVector UInt16)
  | DataTypeDateTime => EmptyColumn (ColumnVector UInt32)
  | _ => EmptyColumnOf t
  end.

(** [ColumnUnique<ColumnType, IndexType>::create(dictionary_type)]. *)
Record ColumnUniqueOf := ColumnUnique_create {
  unique_ColumnType : ColumnType;
  unique_IndexType : NumberType;
  unique_type : IDataType
}.

(** [ColumnWithDictionary::create(column_unique, indexes)]. *)
Record MutableColumn := ColumnWithDictionary_create {
  created_unique : ColumnUniqueOf;
  created_indexes : PlainColumn
}.

Section createColumn.
(** The fields of [this]. *)
Variables dictionary_type indexes_type : IDataType.

(** Lines 145-150. *)
Definition createColumnImpl2 (ColumnType_ : ColumnType) (IndexType_ : NumberType)
  : MutableColumn :=
  ColumnWithDictionary_create
    (ColumnUnique_create ColumnType_ IndexType_ dictionary_type)
    (IDataType_createColumn indexes_type).

(** Lines 152-166. *)
Definition createColumnImpl (ColumnType_ : ColumnType) : Outcome MutableColumn :=
  if typeid_cast (typeid DataTypeUInt8) indexes_type then
    Ok (createColumnImpl2 ColumnType_ UInt8)
  else if typeid_cast (typeid DataTypeUInt16) indexes_type then
    Ok (createColumnImpl2 ColumnType_ UInt16)
  else if typeid_cast (typeid DataTypeUInt32) indexes_type then
    Ok (createColumnImpl2 ColumnType_ UInt32)
  else if typeid_cast (typeid DataTypeUInt64) indexes_type then
    Ok (createColumnImpl2 ColumnType_ UInt64)
  else
    Throw (mkException
             ("The type of indexes must be unsigned integer, but got "
                +:+ getName dictionary_type) LOGICAL_ERROR).

(** Lines 168-184: [CreateColumnVector::operator()<T>], on the [column]
    the functor holds by reference. *)
Definition CreateColumnVector (type : IDataType) (T : NumberType)
           (column : option MutableColumn) : Outcome (option MutableColumn) :=
  if typeid_cast (TypeId_Number T) type then
    c ← createColumnImpl (ColumnVector T); Ok (Some c)
  else Ok column.

(** [TypeList::forEach]: the functor instantiated at each type in turn. *)
Fixpoint forEach (types : list NumberType)
         (f : NumberType -> option MutableColumn -> Outcome (option MutableColumn))
         (column : option MutableColumn) : Outcome (option MutableColumn) :=
  match types with
  | [] => Ok column
  | T :: rest => column' ← f T column; forEach rest f column'
  end.

(** Lines 186-213. *)
Definition createColumn : Outcome MutableColumn :=
  let type :=
    if isNullable dictionary_type then getNestedType dictionary_type
    else dictionary_type in
  if isString type then createColumnImpl ColumnString
  else if isFixedString type then createColumnImpl ColumnFixedString
  else if typeid_cast TypeId_Date type then createColumnImpl (ColumnVector UInt16)
  else if typeid_cast TypeId_DateTime type then createColumnImpl (ColumnVector UInt32)
  else if isNumber type then
    column ← forEach TypeListNumbers (CreateColumnVector dictionary_type) None;
    match column with
    | None =>
        Throw (mkException ("Unexpected numeric type: " +:+ getName type) LOGICAL_ERROR)
    | Some column => Ok column
    end
  else
    Throw (mkException
             ("Unexpected dictionary type for DataTypeWithDictionary: "
                +:+ getName type) LOGICAL_ERROR).
End createColumn.


(** ** Streams *)

Local Close Scope string_scope.

(** A byte is an integer in [0, 256). *)
Definition byte := Z.

(** Modelled from the spec: the write and read helpers for a fixed-width
    unsigned integer (IO/WriteHelpers.h and IO/ReadHelpers.h are not among
    the sources): [n] bytes, least significant first. *)
Fixpoint le_bytes (n : nat) (x : Z) : list byte :=
  match n with
  | O => []
  | S n => (x mod 256)%Z :: le_bytes n (x / 256)%Z
  end.

(** Modelled from the spec: the integer that [bytes], least significant
    first, stand for. *)
Fixpoint le_value (bytes : list byte) : Z :=
  match bytes with
  | [] => 0%Z
  | b :: bytes => (b + 256 * le_value bytes)%Z
  end.

(** The conversion of a [size_t] to [UInt64]. *)
Definition to_UInt64 (n : nat) : Z := (Z.of_nat n mod 2 ^ 64)%Z.

(** Modelled from the spec: the markers of a sub-path (IDataType::Substream):
    those of this type, and those the enclosing types may have put on the
    path before. *)
Inductive Substream :=
| ArrayElements
| ArraySizes
| NullMap
| DictionaryElements
| DictionaryIndexes.

Definition SubstreamPath := list Substream.

(** [path.push_back(x)] and [path.back() = x]. *)
Definition push_back (path : SubstreamPath) (x : Substream) : SubstreamPath :=
  path ++ [x].

Definition set_back (path : SubstreamPath) (x : Substream) : SubstreamPath :=
  <[pred (length path) := x]> path.

(** A buffer (WriteBuffer or ReadBuffer) is known by its identity; a getter
    maps a sub-path to a buffer or to none. *)
Definition StreamId := nat.
Definition OutputStreamGetter := SubstreamPath -> option StreamId.
Definition InputStreamGetter := SubstreamPath -> option StreamId.

(** The methods of a nested data type this file calls (IDataType): bulk and
    single-field (de)serialization.  [serializeBinaryBulk column offset limit]
    is the bytes appended to the sink; a decoder receives the bytes left in
    the source and returns the grown column with the bytes it left. *)
Module Nested.
Record DataType (Column Field : Type) := {
  serializeBinaryBulk : Column -> nat -> nat -> list byte;
  deserializeBinaryBulk : Column -> list byte -> nat -> Outcome (Column * list byte);
  serializeBinary : Field -> list byte;
  deserializeBinary : list byte -> Outcome (Field * list byte)
}.
Arguments serializeBinaryBulk {Column Field} _ _ _ _.
Arguments deserializeBinaryBulk {Column Field} _ _ _ _.
Arguments serializeBinary {Column Field} _ _.
Arguments deserializeBinary {Column Field} _ _.
End Nested.

(** Which of the two nested types a call went to. *)
Inductive Callee := to_dictionary_type | to_indexes_type.

(** The calls made to the nested types, in order: the method, the number of
    rows of the column passed, the buffer, and the offset/limit or row. *)
Inductive Call :=
| call_serializeBinaryBulk (callee : Callee) (rows : nat) (stream : StreamId)
                           (offset limit : nat)
| call_deserializeBinaryBulk (callee : Callee) (rows : nat) (stream : StreamId)
                             (limit : nat)
| call_serializeBinary (callee : Callee) (stream : StreamId)
| call_deserializeBinary (callee : Callee) (stream : StreamId)
| call_serialize_func (callee : Callee) (rows : nat) (row_num : nat) (stream : StreamId)
| call_deserialize_func (callee : Callee) (rows : nat) (stream : StreamId).

(** ** The dictionary column *)

Section Columns.
(** The values of the dictionary's element type. *)
Context {V : Type} `{EqDecision V}.

(** Modelled from the spec: the Unique Dictionary Store
    (Columns/ColumnUnique.h is not among the sources): an ordered sequence
    of values, the code of a value being the first row that holds it. *)
Record ColumnUnique := mkColumnUnique { getNestedColumn : list V }.

(** Modelled from the spec: the Dictionary Column
    (Columns/ColumnWithDictionary.h is not among the sources): one store
    and one index array. *)
Record ColumnWithDictionary := mkColumnWithDictionary {
  getUnique : ColumnUnique;
  getIndexes : list nat
}.

(** Modelled from the spec: insertion of a value already present is a no-op
    that returns its code; insertion of a new value appends it and returns
    the prior size. *)
Definition uniqueInsert (u : ColumnUnique) (x : V) : ColumnUnique * nat :=
  match list_find (x =.) (getNestedColumn u) with
  | Some (code, _) => (u, code)
  | None => (mkColumnUnique (getNestedColumn u ++ [x]), length (getNestedColumn u))
  end.

(** Modelled from the spec: the same, for row [n] of [src]. *)
Definition uniqueInsertFrom (u : ColumnUnique) (src : list V) (n : nat)
  : Outcome (ColumnUnique * nat) :=
  match src !! n with
  | Some x => Ok (uniqueInsert u x)
  | None => Undefined
  end.

(** Modelled from the spec: the deduplicating range-insert of rows
    [start, start + length) of [src]; it returns the codes given. *)
Definition uniqueInsertRangeFrom (u : ColumnUnique) (src : list V) (start len : nat)
  : Outcome (ColumnUnique * list nat) :=
  if decide (start + len <= length src) then
    Ok (foldl (fun acc x =>
                 let '(u', code) := uniqueInsert acc.1 x in (u', acc.2 ++ [code]))
              (u, []) (take len (drop start src)))
  else Undefined.

(** Modelled from the spec: [IColumn::size], [empty] and [insert] of the
    Dictionary Column: growing the column by one row reuses the code of a
    value the store holds, or appends a new entry and a new code. *)
Definition size (c : ColumnWithDictionary) : nat := length (getIndexes c).
Definition empty (c : ColumnWithDictionary) : bool := bool_decide (size c = 0).

Definition insert (c : ColumnWithDictionary) (x : V) : ColumnWithDictionary :=
  let '(u, code) := uniqueInsert (getUnique c) x in
  mkColumnWithDictionary u (getIndexes c ++ [code]).

(** Modelled from the spec: [insert] of the index array, a column of unsigned
    integers of [index_bits] bits (8, 16, 32 or 64, the width the column was
    created with at lines 148-162): a code that does not fit wraps around. *)
Definition insert_index (index_bits : nat) (indexes : list nat) (code : nat)
  : list nat :=
  indexes ++ [code mod 2 ^ index_bits].

(** Modelled from the spec: [insertFrom] of the Dictionary Column: the store
    looks up or appends row [n] of [src], and the code it gives is inserted
    into the index array. *)
Definition insertFrom (index_bits : nat) (c : ColumnWithDictionary)
           (src : list V) (n : nat) : Outcome ColumnWithDictionary :=
  '(u, code) ← uniqueInsertFrom (getUnique c) src n;
  Ok (mkColumnWithDictionary u (insert_index index_bits (getIndexes c) code)).

(** [IColumn::getUInt(n)] of the index array. *)
Definition getUInt (indexes : list nat) (n : nat) : Outcome nat :=
  match indexes !! n with
  | Some code => Ok code
  | None => Undefined
  end.

(** [IColumn::popBack(n)] and [cloneEmpty]. *)
Definition popBack {A} (column : list A) (n : nat) : list A :=
  take (length column - n) column.
Definition cloneEmpty {A} (column : list A) : list A := [].

(** The freshly materialized column: an empty store and no rows. *)
Definition ColumnWithDictionary_empty : ColumnWithDictionary :=
  mkColumnWithDictionary (mkColumnUnique []) [].

(** The column built by repeated single-row inserts. *)
Definition insert_all (values : list V) : ColumnWithDictionary :=
  foldl insert ColumnWithDictionary_empty values.

(** The value a row stands for: the store's entry at the row's code. *)
Definition value_at (c : ColumnWithDictionary) (row : nat) : option V :=
  code ← getIndexes c !! row; getNestedColumn (getUnique c) !! code.
End Columns.
Arguments ColumnUnique V : clear implicits.
Arguments ColumnWithDictionary V : clear implicits.

(** ** The (de)serialization protocol *)

Section Serialization.
Context {V Field : Type} `{EqDecision V}.

(** The two fields of [this], known by the methods they answer. *)
Variable dictionary_type : Nested.DataType (list V) Field.
Variable indexes_type : Nested.DataType (list nat) Field.

(** What a call can read and change: the column it is given, the contents
    of the buffers (bytes written so far to a sink, bytes left in a
    source), and the calls made to the nested types. *)
Record State := mkState {
  column : ColumnWithDictionary V;
  buffers : StreamId -> list byte;
  calls : list Call
}.

Definition write (stream : StreamId) (bytes : list byte) (st : State) : State :=
  mkState (column st) (<[stream := buffers st stream ++ bytes]> (buffers st)) (calls st).

Definition set_buffer (stream : StreamId) (bytes : list byte) (st : State) : State :=
  mkState (column st) (<[stream := bytes]> (buffers st)) (calls st).

Definition set_column (c : ColumnWithDictionary V) (st : State) : State :=
  mkState c (buffers st) (calls st).

Definition called (c : Call) (st : State) : State :=
  mkState (column st) (buffers st) (calls st ++ [c]).

Definition writeIntBinary (x : Z) (stream : StreamId) (st : State) : State :=
  write stream (le_bytes 8 x) st.

Definition readIntBinary (stream : StreamId) (st : State) : Outcome (Z * State) :=
  let bytes := buffers st stream in
  if decide (8 <= length bytes) then
    Ok (le_value (take 8 bytes), set_buffer stream (drop 8 bytes) st)
  else Throw (mkException "Cannot read all data" CANNOT_READ_ALL_DATA).

(** [type->serializeBinaryBulk(column, *stream, offset, limit)]. *)
Definition call_serialize {A} (callee : Callee) (type : Nested.DataType (list A) Field)
           (col : list A) (stream : StreamId) (offset limit : nat) (st : State) : State :=
  called (call_serializeBinaryBulk callee (length col) stream offset limit)
         (write stream (Nested.serializeBinaryBulk type col offset limit) st).

(** [type->deserializeBinaryBulk(column, *stream, limit, 0)]. *)
Definition call_deserialize {A} (callee : Callee) (type : Nested.DataType (list A) Field)
           (col : list A) (stream : StreamId) (limit : nat) (st : State)
  : Outcome (list A * State) :=
  '(col', rest) ← Nested.deserializeBinaryBulk type col (buffers st stream) limit;
  Ok (col', called (call_deserializeBinaryBulk callee (length col) stream limit)
                   (set_buffer stream rest st)).

(** Lines 60-69: the block of the DictionaryElements sub-path. *)
Definition serialize_DictionaryElements
           (getter : OutputStreamGetter) (offset : nat)
           (path : SubstreamPath) (st : State) : State :=
  let column_with_dictionary := column st in
  match getter path with
  | Some stream =>
      if decide (offset = 0) then
        let nested := getNestedColumn (getUnique column_with_dictionary) in
        let nested_size := to_UInt64 (length nested) in
        let st := writeIntBinary nested_size stream st in
        call_serialize to_dictionary_type dictionary_type nested stream 0 0 st
      else st
  | None => st
  end.

(** Lines 72-73: the block of the DictionaryIndexes sub-path. *)
Definition serialize_DictionaryIndexes
           (getter : OutputStreamGetter) (offset limit : nat)
           (path : SubstreamPath) (st : State) : State :=
  let column_with_dictionary := column st in
  match getter path with
  | Some stream =>
      call_serialize to_indexes_type indexes_type
                     (getIndexes column_with_dictionary) stream offset limit st
  | None => st
  end.

(** Lines 49-74, from after the cast of [column] at line 57. *)
Definition serializeBinaryBulkWithMultipleStreams
           (getter : OutputStreamGetter) (offset limit : nat)
           (path : SubstreamPath) (st : State) : State :=
  let path := push_back path DictionaryElements in
  let st := serialize_DictionaryElements getter offset path st in
  let path := set_back path DictionaryIndexes in
  serialize_DictionaryIndexes getter offset limit path st.

(** Lines 87-99: the block of the DictionaryElements sub-path. *)
Definition deserialize_DictionaryElements
           (getter : InputStreamGetter)
           (path : SubstreamPath) (st : State) : Outcome State :=
  match getter path with
  | Some stream =>
      if empty (column st) then
        '(nested_size, st) ← readIntBinary stream st;
        let dict_column := cloneEmpty (getNestedColumn (getUnique (column st))) in
        '(dict_column, st) ←
          call_deserialize to_dictionary_type dictionary_type
                           dict_column stream (Z.to_nat nested_size) st;
        '(unique, _) ←
          uniqueInsertRangeFrom (getUnique (column st)) dict_column 0
                                (length dict_column);
        Ok (set_column (mkColumnWithDictionary unique (getIndexes (column st))) st)
      else Ok st
  | None => Ok st
  end.

(** Lines 102-103: the block of the DictionaryIndexes sub-path. *)
Definition deserialize_DictionaryIndexes
           (getter : InputStreamGetter) (limit : nat)
           (path : SubstreamPath) (st : State) : Outcome State :=
  match getter path with
  | Some stream =>
      '(indexes, st) ←
        call_deserialize to_indexes_type indexes_type
                         (getIndexes (column st)) stream limit st;
      Ok (set_column (mkColumnWithDictionary (getUnique (column st)) indexes) st)
  | None => Ok st
  end.

(** Lines 76-104, from after the cast of [column] at line 84. *)
Definition deserializeBinaryBulkWithMultipleStreams
           (getter : InputStreamGetter) (limit : nat)
           (path : SubstreamPath) (st : State) : Outcome State :=
  let path := push_back path DictionaryElements in
  st ← deserialize_DictionaryElements getter path st;
  let path := set_back path DictionaryIndexes in
  deserialize_DictionaryIndexes getter limit path st.

(** A pass in chunks: one call per (offset, limit), on the same column. *)
Definition serialize_chunks (getter : OutputStreamGetter)
           (chunks : list (nat * nat)) (path : SubstreamPath) (st : State) : State :=
  foldl (fun st chunk =>
           serializeBinaryBulkWithMultipleStreams getter chunk.1 chunk.2 path st)
        st chunks.

(** Lines 106-113. *)
Definition serializeBinary (field : Field) (ostr : StreamId) (st : State) : State :=
  called (call_serializeBinary to_dictionary_type ostr)
         (write ostr (Nested.serializeBinary dictionary_type field) st).

Definition deserializeBinary (istr : StreamId) (st : State) : Outcome (Field * State) :=
  '(field, rest) ← Nested.deserializeBinary dictionary_type (buffers st istr);
  Ok (field, called (call_deserializeBinary to_dictionary_type istr)
                    (set_buffer istr rest st)).

(** Lines 115-123.  [func] is a single-value serialization method of
    [dictionary_type], with its extra arguments; it is given the store,
    whose rows are the rows of its nested column. *)
Definition serializeImpl (row_num : nat) (ostr : StreamId)
           (func : list V -> nat -> list byte) (st : State) : Outcome State :=
  let column_with_dictionary := column st in
  unique_row_number ← getUInt (getIndexes column_with_dictionary) row_num;
  let unique := getNestedColumn (getUnique column_with_dictionary) in
  Ok (called (call_serialize_func to_dictionary_type (length unique)
                                  unique_row_number ostr)
             (write ostr (func unique unique_row_number) st)).

(** Lines 125-143.  [nested_unique] is the store's own nested column, so
    the row [func] decodes into it is a row of the store when [insertFrom]
    looks the value up.  [index_bits] is the width of the column's index
    array; the code compared at line 141 is the one read back from it. *)
Definition deserializeImpl (index_bits : nat) (istr : StreamId)
           (func : list V -> list byte -> Outcome (list V * list byte))
           (st : State) : Outcome State :=
  let column_with_dictionary := column st in
  let nested_unique := getNestedColumn (getUnique column_with_dictionary) in
  let size_ := size column_with_dictionary in
  let unique_size := length nested_unique in
  '(nested_unique, rest) ← func nested_unique (buffers st istr);
  let st := called (call_deserialize_func to_dictionary_type unique_size istr)
                   (set_buffer istr rest st) in
  let column_with_dictionary :=
    mkColumnWithDictionary (mkColumnUnique nested_unique)
                           (getIndexes column_with_dictionary) in
  column_with_dictionary ←
    insertFrom index_bits column_with_dictionary nested_unique unique_size;
  code ← getUInt (getIndexes column_with_dictionary) size_;
  if decide (code <> unique_size) then
    let nested_unique := getNestedColumn (getUnique column_with_dictionary) in
    Ok (set_column
          (mkColumnWithDictionary (mkColumnUnique (popBack nested_unique 1))
                                  (getIndexes column_with_dictionary)) st)
  else Ok (set_column column_with_dictionary st).
End Serialization.
Arguments State V : clear implicits.
Arguments mkState {V} _ _ _.

(** ** A nested type to run the protocol with *)

(** The bulk format of a type whose rows are single bytes written raw, as
    the 8-bit number types have it: a limit of 0, or one past the end, stands
    for all the rows from the offset on. *)
Definition raw_serializeBinaryBulk {A} (to_byte : A -> byte)
           (col : list A) (offset limit : nat) : list byte :=
  let limit :=
    if bool_decide (limit = 0 \/ length col < offset + limit)
    then length col - offset else limit in
  to_byte <$> take limit (drop offset col).

Definition raw_deserializeBinaryBulk {A} (of_byte : byte -> A)
           (col : list A) (istr : list byte) (limit : nat)
  : Outcome (list A * list byte) :=
  Ok (col ++ (of_byte <$> take limit istr), drop limit istr).

Definition raw_deserializeBinary (istr : list byte) : Outcome (Z * list byte) :=
  match istr with
  | b :: rest => Ok (b, rest)
  | [] => Throw (mkException "Cannot read all data" CANNOT_READ_ALL_DATA)
  end.

Definition UInt8_elements : Nested.DataType (list Z) Z := {|
  Nested.serializeBinaryBulk := raw_serializeBinaryBulk id;
  Nested.deserializeBinaryBulk := raw_deserializeBinaryBulk id;
  Nested.serializeBinary := fun field => [(field mod 256)%Z];
  Nested.deserializeBinary := raw_deserializeBinary
|}.

Definition UInt8_indexes : Nested.DataType (list nat) Z := {|
  Nested.serializeBinaryBulk := raw_serializeBinaryBulk (fun c => (Z.of_nat c mod 256)%Z);
  Nested.deserializeBinaryBulk := raw_deserializeBinaryBulk Z.to_nat;
  Nested.serializeBinary := fun field => [(field mod 256)%Z];
  Nested.deserializeBinary := raw_deserializeBinary
|}.

(** The single-value methods of the same type. *)
Definition UInt8_serialize_value (col : list Z) (row_num : nat) : list byte :=
  match col !! row_num with
  | Some x => [x]
  | None => []
  end.

Definition UInt8_deserialize_value (col : list Z) (istr : list byte)
  : Outcome (list Z * list byte) :=
  '(x, rest) ← raw_deserializeBinary istr; Ok (col ++ [x], rest).

(** A getter with one buffer per sub-path. *)
Definition two_streams : SubstreamPath -> option StreamId := fun path =>
  match path !! pred (length path) with
  | Some DictionaryElements => Some 0
  | Some DictionaryIndexes => Some 1
  | _ => None
  end.

Definition no_bytes : StreamId -> list byte := fun _ => [].

(** The rows "a", "b", "a", "c" of the spec's scenario, as their bytes. *)
Definition rows_abac : list Z := [97; 98; 97; 99]%Z.

(** The column of the scenario with nothing written yet. *)
Definition abac_state : State Z := mkState (insert_all rows_abac) no_bytes [].

(** The scenario written over its whole row range, and the buffers it filled
    handed to a reader with a freshly materialized column. *)
Definition abac_written : State Z :=
  serializeBinaryBulkWithMultipleStreams UInt8_elements UInt8_indexes
    two_streams 0 4 [] abac_state.

Definition abac_source : State Z :=
  mkState ColumnWithDictionary_empty (buffers abac_written) [].

(** ** The notions the properties are stated with *)

(** The kinds the construction accepts, as the sets they are. *)
Definition unsigned_integer_kind (t : IDataType) : Prop :=
  t = DataTypeUInt8 \/ t = DataTypeUInt16 \/ t = DataTypeUInt32 \/ t = DataTypeUInt64.

Definition supported_element_kind (t : IDataType) : Prop :=
  (exists T, t = DataTypeNumber T) \/ t = DataTypeString
  \/ (exists n, t = DataTypeFixedString n) \/ t = DataTypeDate \/ t = DataTypeDateTime.

Definition unwrap_optional (t : IDataType) : IDataType :=
  match t with
  | DataTypeNullable nested_type => nested_type
  | _ => t
  end.

(** The storage representation the spec gives each supported kind. *)
Definition representation_of (inner : IDataType) : option ColumnType :=
  match inner with
  | DataTypeString => Some ColumnString
  | DataTypeFixedString _ => Some ColumnFixedString
  | DataTypeDate => Some (ColumnVector UInt16)
  | DataTypeDateTime => Some (ColumnVector UInt32)
  | DataTypeNumber T => Some (ColumnVector T)
  | _ => None
  end.

(** The calls of a log that went to [dictionary_type]'s bulk serialization. *)
Definition is_dictionary_payload_call (c : Call) : bool :=
  match c with
  | call_serializeBinaryBulk to_dictionary_type _ _ _ _ => true
  | _ => false
  end.

Definition is_indexes_call (c : Call) : bool :=
  match c with
  | call_serializeBinaryBulk to_indexes_type _ _ _ _
  | call_deserializeBinaryBulk to_indexes_type _ _ _
  | call_serializeBinary to_indexes_type _
  | call_deserializeBinary to_indexes_type _
  | call_serialize_func to_indexes_type _ _ _
  | call_deserialize_func to_indexes_type _ _ => true
  | _ => false
  end.

(** A column is well formed when its store has no value twice and every code
    of its index array is a row of the store. *)
Definition well_formed {V} (c : ColumnWithDictionary V) : Prop :=
  NoDup (getNestedColumn (getUnique c))
  /\ Forall (fun code => code < length (getNestedColumn (getUnique c))) (getIndexes c).

(** The bytes of the dictionary payload of a column: the store's size in 8
    bytes, then what the element type's bulk serialization gives for the
    store's nested column when called with offset 0 and limit 0. *)
Definition dictionary_payload {V Field} (dictionary_type : Nested.DataType (list V) Field)
           (c : ColumnWithDictionary V) : list byte :=
  le_bytes 8 (to_UInt64 (length (getNestedColumn (getUnique c))))
  ++ Nested.serializeBinaryBulk dictionary_type (getNestedColumn (getUnique c)) 0 0.

(** How many calls of a log satisfy [p]. *)
Definition count_calls (p : Call -> bool) (log : list Call) : nat :=
  length (List.filter p log).

(** How many chunks of a pass start at row 0. *)
Definition chunks_at_start (chunks : list (nat * nat)) : nat :=
  length (List.filter (fun chunk => Nat.eqb chunk.1 0) chunks).

(** ** Stream enumeration and the factory entry *)

Section enumerateStreams.
(** [enumerateStreams] of the two nested types: the paths each one hands to
    the callback, in order, when started at a path. *)
Variable dictionary_enumerateStreams : SubstreamPath -> list SubstreamPath.
Variable indexes_enumerateStreams : SubstreamPath -> list SubstreamPath.

(** Lines 41-47: the paths the callback receives, in order. *)
Definition enumerateStreams (path : SubstreamPath) : list SubstreamPath :=
  let path := push_back path DictionaryElements in
  let reported := dictionary_enumerateStreams path in
  let path := set_back path DictionaryIndexes in
  reported ++ indexes_enumerateStreams path.
End enumerateStreams.

(** Modelled from the spec: a node of the parsed type syntax (Parsers/IAST.h
    is not among the sources): its text and its children. *)
Inductive IAST := mkIAST (text : string) (children : list IAST).

Definition children (node : IAST) : list IAST :=
  match node with mkIAST _ children => children end.

Definition text (node : IAST) : string :=
  match node with mkIAST text _ => text end.

Section create.
(** [DataTypeFactory::instance().get]: the type an argument denotes. *)
Variable DataTypeFactory_get : IAST -> Outcome IDataType.

(** The language leaves open which of the two arguments of [make_shared] is
    evaluated first. *)
Variable indexes_argument_first : bool.

(** Lines 227-235; [arguments] is null or a node. *)
Definition create (arguments : option IAST) : Outcome IDataType :=
  let wrong_number :=
    Throw (mkException
             "WithDictionary data type family must have two arguments - type of elements and type of indices"%string
             NUMBER_OF_ARGUMENTS_DOESNT_MATCH) in
  match arguments with
  | None => wrong_number
  | Some arguments =>
      if negb (bool_decide (length (children arguments) = 2)) then wrong_number
      else
        match children arguments !! 0, children arguments !! 1 with
        | Some argument0, Some argument1 =>
            if indexes_argument_first then
              indexes_type ← DataTypeFactory_get argument1;
              dictionary_type ← DataTypeFactory_get argument0;
              DataTypeWithDictionary dictionary_type indexes_type
            else
              dictionary_type ← DataTypeFactory_get argument0;
              indexes_type ← DataTypeFactory_get argument1;
              DataTypeWithDictionary dictionary_type indexes_type
        | _, _ => Undefined
        end
  end.
End create.

(** A factory to run [create] with: it knows four plain type names. *)
Definition sample_factory (node : IAST) : Outcome IDataType :=
  if bool_decide (text node = "String"%string) then Ok DataTypeString
  else if bool_decide (text node = "UInt8"%string) then Ok DataTypeUInt8
  else if bool_decide (text node = "UInt16"%string) then Ok DataTypeUInt16
  else if bool_decide (text node = "Int32"%string) then Ok (DataTypeNumber Int32)
  else Throw (mkException "Unknown data type family"%string LOGICAL_ERROR).

(** A pass of [n] single-value decodes from one source, row after row. *)
Fixpoint deserialize_rows {V} `{EqDecision V} (index_bits n : nat) (istr : StreamId)
         (func : list V -> list byte -> Outcome (list V * list byte))
         (st : State V) : Outcome (State V) :=
  match n with
  | O => Ok st
  | S n =>
      st ← deserializeImpl index_bits istr func st;
      deserialize_rows index_bits n istr func st
  end.

(** The single-value decoding of a 16-bit number: two bytes, least
    significant first. *)
Definition UInt16_deserialize_value (col : list Z) (istr : list byte)
  : Outcome (list Z * list byte) :=
  match istr with
  | b0 :: b1 :: rest => Ok (col ++ [(b0 + 256 * b1)%Z], rest)
  | _ => Throw (mkException "Cannot read all data"%string CANNOT_READ_ALL_DATA)
  end.

(** A column of 16-bit numbers with 8-bit codes whose store holds the 256
    values 0..255, one row each, and a source holding the number 256. *)
Definition full_UInt8_state : State Z :=
  mkState (insert_all (Z.of_nat <$> seq 0 256)) (fun _ => [0; 1]%Z) [].

(** * Properties *)

(** ** Construction *)

Lemma isUnsignedInteger_kind (t : IDataType) :
  isUnsignedInteger t = true <-> unsigned_integer_kind t.
Proof.
  unfold unsigned_integer_kind; split.
  - destruct t as [[]| | | | | | | |]; simpl; intros E; try discriminate E; tauto.
  - intros [-> | [-> | [-> | ->]]]; reflexivity.
Qed.

Lemma supported_kind_checks (t : IDataType) :
  negb (isStringOrFixedString t) && negb (isDateOrDateTime t) && negb (isNumber t) = false
  <-> supported_element_kind t.
Proof.
  unfold supported_element_kind; split.
  - destruct t; simpl; intros E; try discriminate E; eauto 6.
  - intros [[T ->] | [-> | [[n ->] | [-> | ->]]]]; reflexivity.
Qed.

Lemma inner_type_unwrap (t : IDataType) :
  (if isNullable t then getNestedType t else t) = unwrap_optional t.
Proof. destruct t; reflexivity. Qed.

(** C6: construction fails with ILLEGAL_TYPE_OF_ARGUMENT for every index type
    that is not an unsigned integer kind; otherwise it fails with the same
    code for every element type whose one-level-unwrapped inner type is not a
    number, string, fixed string, date or date-time; and for every pair
    inside those sets it succeeds, returning the type with exactly the two
    fields it was given. *)
Theorem DataTypeWithDictionary_construction (elementType indexType : IDataType) :
  (~ unsigned_integer_kind indexType ->
   exists msg, DataTypeWithDictionary elementType indexType
               = Throw (mkException msg ILLEGAL_TYPE_OF_ARGUMENT))
  /\ (unsigned_integer_kind indexType ->
      ~ supported_element_kind (unwrap_optional elementType) ->
      exists msg, DataTypeWithDictionary elementType indexType
                  = Throw (mkException msg ILLEGAL_TYPE_OF_ARGUMENT))
  /\ (unsigned_integer_kind indexType ->
      supported_element_kind (unwrap_optional elementType) ->
      DataTypeWithDictionary elementType indexType
      = Ok (WithDictionary elementType indexType)).
Proof.
  unfold DataTypeWithDictionary; rewrite inner_type_unwrap.
  repeat split.
  - intros Hi. rewrite <- isUnsignedInteger_kind in Hi.
    destruct (isUnsignedInteger indexType); [congruence|]. simpl; eauto.
  - intros Hi He. apply isUnsignedInteger_kind in Hi. rewrite Hi; simpl.
    rewrite <- supported_kind_checks in He.
    destruct (negb (isStringOrFixedString _) && _ && _); [eauto | congruence].
  - intros Hi He. apply isUnsignedInteger_kind in Hi. rewrite Hi; simpl.
    apply supported_kind_checks in He. rewrite He. reflexivity.
Qed.

Lemma DataTypeWithDictionary_construction_witness :
  DataTypeWithDictionary (DataTypeNullable DataTypeString) DataTypeUInt16
  = Ok (WithDictionary (DataTypeNullable DataTypeString) DataTypeUInt16).
Proof.
  apply (DataTypeWithDictionary_construction (DataTypeNullable DataTypeString)
                                             DataTypeUInt16).
  - right; left; reflexivity.
  - right; left; reflexivity.
Defined.

Lemma DataTypeWithDictionary_inv (elementType indexType t : IDataType) :
  DataTypeWithDictionary elementType indexType = Ok t ->
  t = WithDictionary elementType indexType
  /\ unsigned_integer_kind indexType
  /\ supported_element_kind (unwrap_optional elementType).
Proof.
  unfold DataTypeWithDictionary; rewrite inner_type_unwrap. intros E.
  destruct (isUnsignedInteger indexType) eqn:Hi; simpl in E; [|discriminate E].
  destruct (negb (isStringOrFixedString _) && _ && _) eqn:He; [discriminate E|].
  injection E as <-. split; [reflexivity|].
  split; [apply isUnsignedInteger_kind, Hi | apply supported_kind_checks, He].
Qed.

(** ** Equality *)

Lemma equals_eq (a b : IDataType) : equals a b = true <-> a = b.
Proof.
  revert b; induction a as [T| |n| | | |a IH|a IH|d IHd i IHi]; intros b;
    destruct b; simpl;
    rewrite ?bool_decide_eq_true, ?andb_true_iff, ?IH, ?IHd, ?IHi;
    split; intros E; try discriminate E; try congruence;
    try (destruct E; congruence); try (injection E; auto).
Qed.

Lemma equals_refl (a : IDataType) : equals a a = true.
Proof. apply equals_eq; reflexivity. Qed.

Lemma equals_sym (a b : IDataType) : equals a b = equals b a.
Proof.
  destruct (equals a b) eqn:E1, (equals b a) eqn:E2; try reflexivity.
  - apply equals_eq in E1. subst. rewrite equals_refl in E2. discriminate E2.
  - apply equals_eq in E2. subst. rewrite equals_refl in E1. discriminate E1.
Qed.

(** C8: [equals] is false on a right-hand side of another dynamic kind, and
    on a Dictionary Type it is the conjunction of the two nested [equals];
    so it is reflexive and symmetric on constructed Dictionary Types,
    structurally equal pairs give equal types, and the same element type
    with two different index widths gives unequal types. *)
Theorem DataTypeWithDictionary_equals (elementType indexType : IDataType) :
  (forall rhs, typeid rhs <> TypeId_WithDictionary ->
               equals (WithDictionary elementType indexType) rhs = false)
  /\ (forall e' i',
        equals (WithDictionary elementType indexType) (WithDictionary e' i') = true
        <-> equals elementType e' = true /\ equals indexType i' = true)
  /\ (forall t, DataTypeWithDictionary elementType indexType = Ok t ->
                equals t t = true)
  /\ (forall e' i' t t',
        DataTypeWithDictionary elementType indexType = Ok t ->
        DataTypeWithDictionary e' i' = Ok t' ->
        equals t t' = equals t' t)
  /\ (forall e' i' t t',
        equals elementType e' = true -> equals indexType i' = true ->
        DataTypeWithDictionary elementType indexType = Ok t ->
        DataTypeWithDictionary e' i' = Ok t' ->
        equals t t' = true)
  /\ (forall T T', T <> T' ->
        equals (WithDictionary elementType (DataTypeNumber T))
               (WithDictionary elementType (DataTypeNumber T')) = false).
Proof.
  repeat split.
  - intros rhs Hk. simpl. rewrite bool_decide_eq_false_2 by exact Hk. reflexivity.
  - simpl in H. apply andb_true_iff in H. tauto.
  - simpl in H. apply andb_true_iff in H. tauto.
  - intros [He Hi]. simpl. rewrite He, Hi. reflexivity.
  - intros t _. apply equals_refl.
  - intros e' i' t t' _ _. apply equals_sym.
  - intros e' i' t t' He Hi Ht Ht'.
    apply DataTypeWithDictionary_inv in Ht as [-> _].
    apply DataTypeWithDictionary_inv in Ht' as [-> _].
    simpl. rewrite He, Hi. reflexivity.
  - intros T T' Hne. simpl. rewrite equals_refl. simpl.
    apply bool_decide_eq_false_2. congruence.
Qed.

Lemma DataTypeWithDictionary_equals_witness :
  equals (WithDictionary DataTypeString DataTypeUInt8) DataTypeString = false
  /\ equals (WithDictionary DataTypeString DataTypeUInt8)
            (WithDictionary DataTypeString DataTypeUInt16) = false.
Proof.
  destruct (DataTypeWithDictionary_equals DataTypeString DataTypeUInt8)
    as (Hkind & _ & _ & _ & _ & Hwidth).
  split.
  - apply Hkind. simpl. discriminate.
  - apply (Hwidth UInt8 UInt16). discriminate.
Defined.

(** ** Column creation *)

Lemma createColumnImpl_unsigned (d i : IDataType) (ColumnType_ : ColumnType) :
  unsigned_integer_kind i ->
  exists IndexType_,
    i = DataTypeNumber IndexType_
    /\ createColumnImpl d i ColumnType_ = Ok (createColumnImpl2 d i ColumnType_ IndexType_).
Proof.
  intros [-> | [-> | [-> | ->]]]; eexists; split; reflexivity.
Qed.

(** What [createColumn] does on every accepted pair whose element type is
    not an optional number: the representation of the unwrapped element
    type, and an empty index array of the index type. *)
Lemma createColumn_accepted (d i : IDataType) :
  unsigned_integer_kind i ->
  supported_element_kind (unwrap_optional d) ->
  (forall T, d <> DataTypeNullable (DataTypeNumber T)) ->
  exists ColumnType_ IndexType_,
    representation_of (unwrap_optional d) = Some ColumnType_
    /\ i = DataTypeNumber IndexType_
    /\ createColumn d i
       = Ok (ColumnWithDictionary_create
               (ColumnUnique_create ColumnType_ IndexType_ d)
               (EmptyColumn (ColumnVector IndexType_))).
Proof.
  intros Hi He Hn. unfold createColumn. rewrite inner_type_unwrap.
  assert (Himpl : forall C, exists IndexType_, i = DataTypeNumber IndexType_
            /\ createColumnImpl d i C
               = Ok (ColumnWithDictionary_create (ColumnUnique_create C IndexType_ d)
                                                 (EmptyColumn (ColumnVector IndexType_)))).
  { intros C. destruct (createColumnImpl_unsigned d i C Hi) as (IT & -> & E).
    exists IT. split; [reflexivity|]. rewrite E. reflexivity. }
  destruct He as [[T E] | [E | [[n E] | [E | E]]]]; rewrite E; simpl.
  - destruct d; simpl in E; try discriminate E.
    + injection E as ->.
      destruct (Himpl (ColumnVector T)) as (IT & -> & Hc).
      exists (ColumnVector T), IT. split; [reflexivity|]. split; [reflexivity|].
      destruct T; simpl; unfold CreateColumnVector; simpl; rewrite Hc; reflexivity.
    + subst d. exfalso. exact (Hn T eq_refl).
  - destruct (Himpl ColumnString) as (IT & -> & Hc). eauto.
  - destruct (Himpl ColumnFixedString) as (IT & -> & Hc). eauto.
  - destruct (Himpl (ColumnVector UInt16)) as (IT & -> & Hc). eauto.
  - destruct (Himpl (ColumnVector UInt32)) as (IT & -> & Hc). eauto.
Qed.

(** The numeric dispatch is given [dictionary_type], not the unwrapped type:
    on an optional number no member of the list matches. *)
Lemma createColumn_nullable_number (T : NumberType) (i : IDataType) :
  createColumn (DataTypeNullable (DataTypeNumber T)) i
  = Throw (mkException ("Unexpected numeric type: " +:+ NumberType_name T) LOGICAL_ERROR).
Proof. reflexivity. Qed.

(** C9: the pair (Nullable(UInt8), UInt8) is accepted by the construction,
    and [createColumn] on it raises LOGICAL_ERROR from the fall-through of
    the numeric dispatch. *)
Theorem createColumn_fall_through_reached :
  DataTypeWithDictionary (DataTypeNullable DataTypeUInt8) DataTypeUInt8
  = Ok (WithDictionary (DataTypeNullable DataTypeUInt8) DataTypeUInt8)
  /\ createColumn (DataTypeNullable DataTypeUInt8) DataTypeUInt8
     = Throw (mkException "Unexpected numeric type: UInt8" LOGICAL_ERROR).
Proof. split; reflexivity. Qed.

(** ** Paths and fixed-width integers *)

Lemma set_back_push_back (path : SubstreamPath) (a b : Substream) :
  set_back (push_back path a) b = path ++ [b].
Proof.
  unfold set_back, push_back, SubstreamPath in *. rewrite length_app. simpl length.
  replace (pred (length path + 1)) with (length path + 0) by lia.
  exact (insert_app_r path [a] 0 b).
Qed.

Lemma length_le_bytes (n : nat) (x : Z) : length (le_bytes n x) = n.
Proof. revert x; induction n as [|n IH]; intros x; simpl; [|rewrite IH]; reflexivity. Qed.

Lemma le_value_le_bytes (n : nat) (x : Z) :
  le_value (le_bytes n x) = (x mod 256 ^ Z.of_nat n)%Z.
Proof.
  revert x; induction n as [|n IH]; intros x.
  - simpl. rewrite Z.mod_1_r. reflexivity.
  - cbn [le_bytes le_value]. rewrite IH, Nat2Z.inj_succ, Z.pow_succ_r by lia.
    rewrite Z.rem_mul_r by lia. reflexivity.
Qed.

Lemma le_value_UInt64 (n : nat) :
  le_value (le_bytes 8 (to_UInt64 n)) = to_UInt64 n.
Proof.
  rewrite le_value_le_bytes. unfold to_UInt64.
  change (256 ^ Z.of_nat 8)%Z with (2 ^ 64)%Z. apply Z.mod_mod. lia.
Qed.

Lemma to_UInt64_small (n : nat) :
  (Z.of_nat n < 2 ^ 64)%Z -> Z.to_nat (to_UInt64 n) = n.
Proof. intros Hn. unfold to_UInt64. rewrite Z.mod_small by lia. apply Nat2Z.id. Qed.

Lemma count_calls_app (p : Call -> bool) (l1 l2 : list Call) :
  count_calls p (l1 ++ l2) = count_calls p l1 + count_calls p l2.
Proof. unfold count_calls. rewrite List.filter_app, length_app. reflexivity. Qed.

Lemma count_calls_singleton (p : Call -> bool) (c : Call) :
  count_calls p [c] = if p c then 1 else 0.
Proof. unfold count_calls. simpl. destruct (p c); reflexivity. Qed.

(** ** Bulk serialization *)

Section SerializationProperties.
Context {V Field : Type} `{EqDecision V}.
Variable dictionary_type : Nested.DataType (list V) Field.
Variable indexes_type : Nested.DataType (list nat) Field.

Local Abbreviation serialize := (serializeBinaryBulkWithMultipleStreams dictionary_type indexes_type).
Local Abbreviation elements_block := (serialize_DictionaryElements dictionary_type).
Local Abbreviation indexes_block := (serialize_DictionaryIndexes indexes_type).

Lemma serialize_blocks getter offset limit path (st : State V) :
  serialize getter offset limit path st
  = indexes_block getter offset limit (path ++ [DictionaryIndexes])
      (elements_block getter offset (path ++ [DictionaryElements]) st).
Proof.
  unfold serializeBinaryBulkWithMultipleStreams.
  rewrite set_back_push_back. reflexivity.
Qed.

Lemma elements_block_column getter offset path (st : State V) :
  column (elements_block getter offset path st) = column st.
Proof.
  unfold serialize_DictionaryElements.
  destruct (getter path); [destruct (decide (offset = 0))|]; reflexivity.
Qed.

Lemma indexes_block_column getter offset limit path (st : State V) :
  column (indexes_block getter offset limit path st) = column st.
Proof. unfold serialize_DictionaryIndexes. destruct (getter path); reflexivity. Qed.

Lemma elements_block_skipped getter offset path (st : State V) :
  getter path = None \/ offset <> 0 ->
  elements_block getter offset path st = st.
Proof.
  unfold serialize_DictionaryElements. intros [-> | Hoff]; [reflexivity|].
  destruct (getter path); [|reflexivity].
  destruct (decide (offset = 0)); [contradiction | reflexivity].
Qed.

Lemma elements_block_written getter path (st : State V) stream :
  getter path = Some stream ->
  let nested := getNestedColumn (getUnique (column st)) in
  let st1 := elements_block getter 0 path st in
  (forall s, buffers st1 s =
             if decide (s = stream)
             then buffers st stream ++ le_bytes 8 (to_UInt64 (length nested))
                          ++ Nested.serializeBinaryBulk dictionary_type nested 0 0
             else buffers st s)
  /\ calls st1 = calls st
                 ++ [call_serializeBinaryBulk to_dictionary_type (length nested) stream 0 0].
Proof.
  intros Hg. unfold serialize_DictionaryElements. rewrite Hg. simpl.
  split; [|reflexivity].
  intros s. destruct (decide (s = stream)) as [->|Hne].
  - rewrite !fn_lookup_insert, <- app_assoc. reflexivity.
  - rewrite !fn_lookup_insert_ne by congruence. reflexivity.
Qed.

Lemma elements_block_count getter offset path (st : State V) :
  count_calls is_dictionary_payload_call (calls (elements_block getter offset path st))
  <= count_calls is_dictionary_payload_call (calls st)
     + (if Nat.eqb offset 0 then 1 else 0).
Proof.
  unfold serialize_DictionaryElements.
  destruct (getter path); [|destruct (Nat.eqb offset 0); lia].
  destruct (decide (offset = 0)) as [->|Hoff]; [|destruct (Nat.eqb offset 0); lia].
  simpl. rewrite count_calls_app, count_calls_singleton. simpl. lia.
Qed.

Lemma indexes_block_count getter offset limit path (st : State V) :
  count_calls is_dictionary_payload_call
              (calls (indexes_block getter offset limit path st))
  = count_calls is_dictionary_payload_call (calls st).
Proof.
  unfold serialize_DictionaryIndexes. destruct (getter path); [|reflexivity].
  simpl. rewrite count_calls_app, count_calls_singleton. simpl. lia.
Qed.

Lemma serialize_chunks_count getter chunks path (st : State V) :
  count_calls is_dictionary_payload_call
              (calls (serialize_chunks dictionary_type indexes_type getter chunks path st))
  <= count_calls is_dictionary_payload_call (calls st) + chunks_at_start chunks.
Proof.
  revert st; induction chunks as [|[offset limit] chunks IH]; intros st.
  - unfold chunks_at_start; simpl. lia.
  - unfold serialize_chunks in *. cbn [foldl]. etransitivity; [apply IH|].
    cbn [fst snd]. rewrite serialize_blocks, indexes_block_count.
    pose proof (elements_block_count getter offset (path ++ [DictionaryElements]) st).
    unfold chunks_at_start in *. cbn [List.filter fst].
    destruct (Nat.eqb offset 0); simpl; lia.
Qed.

Lemma chunks_at_start_later (chunks : list (nat * nat)) :
  Forall (fun chunk => chunk.1 <> 0) chunks -> chunks_at_start chunks = 0.
Proof.
  unfold chunks_at_start. induction 1 as [|[offset limit] chunks Hoff _ IH]; simpl.
  - reflexivity.
  - simpl in Hoff. destruct offset; [contradiction|]. simpl. exact IH.
Qed.

(** What a call leaves in every buffer, spelled out from the state it
    started on: the former bytes, then the dictionary payload if the buffer
    is the elements sink and the offset is 0, then the index type's bytes if
    the buffer is the indexes sink. *)
Lemma serialize_buffers getter offset limit path (st : State V) s :
  buffers (serialize getter offset limit path st) s
  = buffers st s
    ++ match getter (path ++ [DictionaryElements]) with
       | Some e => if decide (s = e /\ offset = 0)
                   then dictionary_payload dictionary_type (column st) else []
       | None => []
       end
    ++ match getter (path ++ [DictionaryIndexes]) with
       | Some i => if decide (s = i)
                   then Nested.serializeBinaryBulk indexes_type
                          (getIndexes (column st)) offset limit
                   else []
       | None => []
       end.
Proof.
  rewrite serialize_blocks.
  unfold serialize_DictionaryIndexes, serialize_DictionaryElements,
    dictionary_payload, call_serialize, writeIntBinary, called, write.
  destruct (getter (path ++ [DictionaryElements])) as [e|];
    destruct (getter (path ++ [DictionaryIndexes])) as [i|];
    try destruct (decide (offset = 0)) as [Hoff|Hoff]; cbn [buffers column];
    repeat match goal with
           | |- context [decide (s = ?x /\ offset = 0)] =>
               destruct (decide (s = x /\ offset = 0)) as [[? ?]|?]
           | |- context [decide (s = ?x)] => destruct (decide (s = x))
           end;
    repeat match goal with
           | H : ~ (?a = ?b /\ offset = 0), H' : offset = 0 |- _ =>
               assert (a <> b) by (intros ?; apply H; split; assumption); clear H
           end;
    subst;
    rewrite ?fn_lookup_insert;
    repeat (rewrite fn_lookup_insert_ne by congruence);
    rewrite ?fn_lookup_insert;
    rewrite ?app_nil_r, <- ?app_assoc; try reflexivity; try tauto; try congruence.
Qed.

(** The calls of a call, spelled out in the same way. *)
Lemma serialize_calls getter offset limit path (st : State V) :
  calls (serialize getter offset limit path st)
  = calls st
    ++ match getter (path ++ [DictionaryElements]) with
       | Some e => if decide (offset = 0)
                   then [call_serializeBinaryBulk to_dictionary_type
                           (length (getNestedColumn (getUnique (column st)))) e 0 0]
                   else []
       | None => []
       end
    ++ match getter (path ++ [DictionaryIndexes]) with
       | Some i => [call_serializeBinaryBulk to_indexes_type
                      (length (getIndexes (column st))) i offset limit]
       | None => []
       end.
Proof.
  rewrite serialize_blocks.
  unfold serialize_DictionaryIndexes, serialize_DictionaryElements,
    call_serialize, writeIntBinary, called, write.
  destruct (getter (path ++ [DictionaryElements])) as [e|];
    destruct (getter (path ++ [DictionaryIndexes])) as [i|];
    try destruct (decide (offset = 0)) as [Hoff|Hoff]; cbn [calls column];
    rewrite ?app_nil_r, <- ?app_assoc; reflexivity.
Qed.

(** C2: the dictionary payload is written to the DictionaryElements sub-path
    iff the getter gives a sink for it and the offset is 0.  When written, it
    is the store size as 8 bytes (a 64-bit unsigned integer) followed by the
    bytes of the element type's bulk serialization of the store's nested
    column; the call is made with offset 0 and limit 0, and for an element
    type that reads the limit 0 as the whole column these are the bytes of
    offset 0 and limit equal to the store size, the full dictionary.  With
    another offset, or without a sink, nothing of the dictionary is written
    and the element type is not called; so a pass in chunks whose later
    chunks start at other rows than 0 writes the dictionary at most once. *)
Theorem dictionary_payload_written getter offset limit path (st : State V) :
  let nested := getNestedColumn (getUnique (column st)) in
  let st1 := elements_block getter offset (path ++ [DictionaryElements]) st in
  let st' := serialize getter offset limit path st in
  st' = indexes_block getter offset limit (path ++ [DictionaryIndexes]) st1
  /\ (forall stream,
        getter (path ++ [DictionaryElements]) = Some stream -> offset = 0 ->
        (forall s, buffers st1 s =
                   if decide (s = stream)
                   then buffers st stream ++ le_bytes 8 (to_UInt64 (length nested))
                          ++ Nested.serializeBinaryBulk dictionary_type nested 0 0
                   else buffers st s)
        /\ calls st1 = calls st
             ++ [call_serializeBinaryBulk to_dictionary_type (length nested) stream 0 0]
        /\ length (le_bytes 8 (to_UInt64 (length nested))) = 8
        /\ le_value (le_bytes 8 (to_UInt64 (length nested))) = to_UInt64 (length nested))
  /\ (getter (path ++ [DictionaryElements]) = None -> st1 = st)
  /\ (offset <> 0 -> st1 = st)
  /\ (forall chunks,
        count_calls is_dictionary_payload_call
          (calls (serialize_chunks dictionary_type indexes_type getter chunks path st))
        <= count_calls is_dictionary_payload_call (calls st) + chunks_at_start chunks)
  /\ (forall stream,
        getter (path ++ [DictionaryElements]) = Some stream -> offset = 0 ->
        (exists after,
           buffers st' stream
           = buffers st stream ++ le_bytes 8 (to_UInt64 (length nested))
               ++ Nested.serializeBinaryBulk dictionary_type nested 0 0 ++ after)
        /\ count_calls is_dictionary_payload_call (calls st')
           = count_calls is_dictionary_payload_call (calls st) + 1
        /\ (Nested.serializeBinaryBulk dictionary_type nested 0 0
            = Nested.serializeBinaryBulk dictionary_type nested 0 (length nested) ->
            exists after,
              buffers st' stream
              = buffers st stream ++ le_bytes 8 (to_UInt64 (length nested))
                  ++ Nested.serializeBinaryBulk dictionary_type nested 0 (length nested)
                  ++ after))
  /\ (getter (path ++ [DictionaryElements]) = None \/ offset <> 0 ->
      count_calls is_dictionary_payload_call (calls st')
      = count_calls is_dictionary_payload_call (calls st)
      /\ (forall s, getter (path ++ [DictionaryIndexes]) <> Some s ->
                    buffers st' s = buffers st s)
      /\ (forall i, getter (path ++ [DictionaryIndexes]) = Some i ->
                    buffers st' i
                    = buffers st i
                        ++ Nested.serializeBinaryBulk indexes_type
                             (getIndexes (column st)) offset limit))
  /\ (forall first_limit later,
        Forall (fun chunk => chunk.1 <> 0) later ->
        count_calls is_dictionary_payload_call
          (calls (serialize_chunks dictionary_type indexes_type getter
                    ((0, first_limit) :: later) path st))
        <= count_calls is_dictionary_payload_call (calls st) + 1).
Proof.
  intros nested st1 st'. split; [apply serialize_blocks|].
  split; [|split; [|split; [|split; [|split; [|split]]]]].
  - intros stream Hg ->.
    destruct (elements_block_written getter _ st stream Hg) as [Hb Hc].
    split; [exact Hb|]. split; [exact Hc|].
    split; [apply length_le_bytes | apply le_value_UInt64].
  - intros Hg. apply elements_block_skipped. left; exact Hg.
  - intros Hoff. apply elements_block_skipped. right; exact Hoff.
  - intros chunks. apply serialize_chunks_count.
  - intros stream Hg ->.
    assert (Hbuf : exists after,
               buffers st' stream
               = buffers st stream ++ le_bytes 8 (to_UInt64 (length nested))
                   ++ Nested.serializeBinaryBulk dictionary_type nested 0 0 ++ after).
    { subst st'. rewrite serialize_buffers, Hg.
      rewrite decide_True by (split; reflexivity).
      unfold dictionary_payload. fold nested. rewrite <- !app_assoc. eauto. }
    split; [exact Hbuf|]. split.
    + subst st'. rewrite serialize_calls, Hg. rewrite decide_True by reflexivity.
      rewrite !count_calls_app, count_calls_singleton. simpl.
      destruct (getter (path ++ [DictionaryIndexes]));
        [rewrite count_calls_singleton|]; simpl; unfold count_calls; simpl; lia.
    + intros <-. exact Hbuf.
  - intros Hskip.
    assert (E1 : st1 = st) by (apply elements_block_skipped; exact Hskip).
    split; [|split].
    + subst st'. rewrite serialize_blocks. fold st1. rewrite E1.
      unfold serialize_DictionaryIndexes.
      destruct (getter (path ++ [DictionaryIndexes])); [|reflexivity].
      simpl. rewrite count_calls_app, count_calls_singleton. simpl. lia.
    + intros s Hs. subst st'. rewrite serialize_blocks. fold st1. rewrite E1.
      unfold serialize_DictionaryIndexes.
      destruct (getter (path ++ [DictionaryIndexes])) as [i|]; [|reflexivity].
      simpl. apply fn_lookup_insert_ne. congruence.
    + intros i Hi. subst st'. rewrite serialize_blocks. fold st1. rewrite E1.
      unfold serialize_DictionaryIndexes. rewrite Hi. simpl.
      apply fn_lookup_insert.
  - intros first_limit later Hlater.
    etransitivity; [apply serialize_chunks_count|].
    unfold chunks_at_start. simpl. fold (chunks_at_start later).
    rewrite (chunks_at_start_later later Hlater). lia.
Qed.

(** C4: with a sink for the DictionaryIndexes sub-path, the index type's
    bulk serialization is called once, on the index array with the offset
    and limit of the call, and its bytes are appended to that sink; for an
    index type that writes the rows of the range it is given, these are the
    rows [offset, offset + limit) of the index array.  A sub-path without a
    sink gets no bytes and no call, and the other sub-path gets what it gets
    otherwise: every buffer and the calls are spelled out from the state the
    call started on. *)
Theorem indexes_range_serialized getter offset limit path (st : State V) :
  let indexes := getIndexes (column st) in
  let nested := getNestedColumn (getUnique (column st)) in
  let st1 := elements_block getter offset (path ++ [DictionaryElements]) st in
  let st' := serialize getter offset limit path st in
  (forall stream,
     getter (path ++ [DictionaryIndexes]) = Some stream ->
     (forall s, buffers st' s =
                if decide (s = stream)
                then buffers st1 stream
                       ++ Nested.serializeBinaryBulk indexes_type indexes offset limit
                else buffers st1 s)
     /\ calls st' = calls st1
          ++ [call_serializeBinaryBulk to_indexes_type (length indexes) stream offset limit])
  /\ (getter (path ++ [DictionaryIndexes]) = None -> st' = st1)
  /\ (getter (path ++ [DictionaryElements]) = None ->
      st1 = st
      /\ st' = indexes_block getter offset limit (path ++ [DictionaryIndexes]) st)
  /\ count_calls is_indexes_call (calls st1) = count_calls is_indexes_call (calls st)
  /\ (forall s,
        buffers st' s
        = buffers st s
          ++ match getter (path ++ [DictionaryElements]) with
             | Some e => if decide (s = e /\ offset = 0)
                         then le_bytes 8 (to_UInt64 (length nested))
                                ++ Nested.serializeBinaryBulk dictionary_type nested 0 0
                         else []
             | None => []
             end
          ++ match getter (path ++ [DictionaryIndexes]) with
             | Some i => if decide (s = i)
                         then Nested.serializeBinaryBulk indexes_type indexes offset limit
                         else []
             | None => []
             end)
  /\ calls st'
     = calls st
       ++ match getter (path ++ [DictionaryElements]) with
          | Some e => if decide (offset = 0)
                      then [call_serializeBinaryBulk to_dictionary_type
                              (length nested) e 0 0]
                      else []
          | None => []
          end
       ++ match getter (path ++ [DictionaryIndexes]) with
          | Some i => [call_serializeBinaryBulk to_indexes_type
                         (length indexes) i offset limit]
          | None => []
          end
  /\ (forall (encode : nat -> list byte) stream,
        getter (path ++ [DictionaryIndexes]) = Some stream ->
        Nested.serializeBinaryBulk indexes_type indexes offset limit
        = concat (encode <$> take limit (drop offset indexes)) ->
        exists before,
          buffers st' stream
          = before ++ concat (encode <$> take limit (drop offset indexes))
          /\ before
             = buffers st stream
               ++ match getter (path ++ [DictionaryElements]) with
                  | Some e => if decide (stream = e /\ offset = 0)
                              then le_bytes 8 (to_UInt64 (length nested))
                                     ++ Nested.serializeBinaryBulk dictionary_type
                                          nested 0 0
                              else []
                  | None => []
                  end).
Proof.
  intros indexes nested st1 st'.
  assert (Hblocks : st' = indexes_block getter offset limit
                            (path ++ [DictionaryIndexes]) st1)
    by apply serialize_blocks.
  split; [|split; [|split; [|split; [|split; [|split]]]]].
  - intros stream Hg. rewrite Hblocks. unfold serialize_DictionaryIndexes. rewrite Hg.
    subst st1. rewrite elements_block_column. fold indexes. simpl.
    split; [|reflexivity].
    intros s. destruct (decide (s = stream)) as [->|Hne].
    + rewrite fn_lookup_insert. reflexivity.
    + rewrite fn_lookup_insert_ne by congruence. reflexivity.
  - intros Hg. rewrite Hblocks. unfold serialize_DictionaryIndexes. rewrite Hg.
    reflexivity.
  - intros Hg. assert (E : st1 = st) by (apply elements_block_skipped; left; exact Hg).
    rewrite Hblocks, E. split; reflexivity.
  - subst st1. unfold serialize_DictionaryElements.
    destruct (getter (path ++ [DictionaryElements])); [|reflexivity].
    destruct (decide (offset = 0)); [|reflexivity].
    simpl. rewrite count_calls_app, count_calls_singleton. simpl. lia.
  - intros s. subst st'. rewrite serialize_buffers. reflexivity.
  - subst st'. apply serialize_calls.
  - intros encode stream Hg Hrows. eexists. split; [|reflexivity].
    subst st' indexes nested. rewrite serialize_buffers, Hg.
    rewrite decide_True by reflexivity. rewrite Hrows.
    unfold dictionary_payload. rewrite app_assoc. reflexivity.
Qed.

(** ** Single values *)

(** C7: for a valid row, single-value serialization reads the row's code
    from the index array and calls the element type's method on the store
    at that code, and makes no call to the index type; when the method
    depends on the row's value only, the bytes are those the method gives
    for any plain column holding the same value at that row. *)
Theorem serializeImpl_delegates row_num ostr func (st : State V) code :
  getIndexes (column st) !! row_num = Some code ->
  let store := getNestedColumn (getUnique (column st)) in
  exists st',
    serializeImpl row_num ostr func st = Ok st'
    /\ (forall s, buffers st' s =
                  if decide (s = ostr) then buffers st ostr ++ func store code
                  else buffers st s)
    /\ calls st' = calls st
         ++ [call_serialize_func to_dictionary_type (length store) code ostr]
    /\ count_calls is_indexes_call (calls st') = count_calls is_indexes_call (calls st)
    /\ (forall plain : list V,
          (forall c1 r1 c2 r2, c1 !! r1 = c2 !! r2 -> func c1 r1 = func c2 r2) ->
          plain !! row_num = value_at (column st) row_num ->
          func store code = func plain row_num).
Proof.
  intros Hcode store. unfold serializeImpl, getUInt. rewrite Hcode. simpl.
  eexists. split; [reflexivity|]. simpl. fold store.
  split; [|split; [reflexivity|split]].
  - intros s. destruct (decide (s = ostr)) as [->|Hne].
    + rewrite fn_lookup_insert. reflexivity.
    + rewrite fn_lookup_insert_ne by congruence. reflexivity.
  - rewrite count_calls_app, count_calls_singleton. simpl. lia.
  - intros plain Hfunc Hplain. apply Hfunc.
    unfold value_at in Hplain. rewrite Hcode in Hplain. simpl in Hplain.
    symmetry. exact Hplain.
Qed.

(** ** Serialization leaves the column alone *)

(** C10: bulk serialization, single-value serialization and Field
    serialization return a state whose column is the column they were
    given; single-value serialization returns for every valid row. *)
Theorem serialization_preserves_column
        getter offset limit path row_num ostr func field (st : State V) :
  column (serialize getter offset limit path st) = column st
  /\ match serializeImpl row_num ostr func st with
     | Ok st' => column st' = column st
     | _ => size (column st) <= row_num
     end
  /\ column (serializeBinary dictionary_type field ostr st) = column st.
Proof.
  split; [|split].
  - rewrite serialize_blocks, indexes_block_column, elements_block_column. reflexivity.
  - unfold serializeImpl, getUInt, size.
    destruct (getIndexes (column st) !! row_num) eqn:E; simpl; [reflexivity|].
    apply lookup_ge_None. exact E.
  - reflexivity.
Qed.
End SerializationProperties.


(** ** Bulk deserialization *)

Section DeserializationProperties.
Context {V Field : Type} `{EqDecision V}.
Variable dictionary_type : Nested.DataType (list V) Field.
Variable indexes_type : Nested.DataType (list nat) Field.

Local Abbreviation deserialize :=
  (deserializeBinaryBulkWithMultipleStreams dictionary_type indexes_type).
Local Abbreviation read_elements := (deserialize_DictionaryElements dictionary_type).
Local Abbreviation read_indexes := (deserialize_DictionaryIndexes indexes_type).

Lemma deserialize_blocks getter limit path (st : State V) :
  deserialize getter limit path st
  = (st1 ← read_elements getter (path ++ [DictionaryElements]) st;
     read_indexes getter limit (path ++ [DictionaryIndexes]) st1).
Proof.
  unfold deserializeBinaryBulkWithMultipleStreams.
  rewrite set_back_push_back. reflexivity.
Qed.

Lemma uniqueInsertRangeFrom_whole (u : ColumnUnique V) (src : list V) :
  exists u' codes, uniqueInsertRangeFrom u src 0 (length src) = Ok (u', codes).
Proof.
  unfold uniqueInsertRangeFrom. rewrite decide_True by (simpl; lia).
  destruct (foldl _ _ _) as [u' codes]. eauto.
Qed.

Lemma read_elements_skipped getter path (st : State V) :
  getter path = None \/ empty (column st) = false ->
  read_elements getter path st = Ok st.
Proof.
  unfold deserialize_DictionaryElements. intros [-> | Hne]; [reflexivity|].
  destruct (getter path); [rewrite Hne|]; reflexivity.
Qed.

Lemma read_elements_read getter path (st : State V) stream staged rest :
  getter path = Some stream ->
  empty (column st) = true ->
  8 <= length (buffers st stream) ->
  Nested.deserializeBinaryBulk dictionary_type []
    (drop 8 (buffers st stream))
    (Z.to_nat (le_value (take 8 (buffers st stream)))) = Ok (staged, rest) ->
  exists st1 codes,
    read_elements getter path st = Ok st1
    /\ uniqueInsertRangeFrom (getUnique (column st)) staged 0 (length staged)
       = Ok (getUnique (column st1), codes)
    /\ getIndexes (column st1) = getIndexes (column st)
    /\ (forall s, buffers st1 s = if decide (s = stream) then rest else buffers st s)
    /\ calls st1 = calls st
         ++ [call_deserializeBinaryBulk to_dictionary_type 0 stream
               (Z.to_nat (le_value (take 8 (buffers st stream))))].
Proof.
  intros Hg He Hlen Hdec.
  unfold deserialize_DictionaryElements, readIntBinary, call_deserialize.
  rewrite Hg, He. rewrite decide_True by exact Hlen. simpl.
  rewrite fn_lookup_insert. unfold cloneEmpty. rewrite Hdec. simpl.
  destruct (uniqueInsertRangeFrom_whole (getUnique (column st)) staged)
    as (u' & codes & Hins).
  rewrite Hins. simpl. eexists _, codes. split; [reflexivity|]. simpl.
  split; [reflexivity|]. split; [reflexivity|]. split; [|reflexivity].
  intros s. destruct (decide (s = stream)) as [->|Hne].
  - rewrite fn_lookup_insert. reflexivity.
  - rewrite !fn_lookup_insert_ne by congruence. reflexivity.
Qed.

Lemma read_indexes_read getter limit path (st1 : State V) stream indexes rest :
  getter path = Some stream ->
  Nested.deserializeBinaryBulk indexes_type (getIndexes (column st1))
    (buffers st1 stream) limit = Ok (indexes, rest) ->
  exists st',
    read_indexes getter limit path st1 = Ok st'
    /\ getIndexes (column st') = indexes
    /\ getUnique (column st') = getUnique (column st1)
    /\ (forall s, buffers st' s = if decide (s = stream) then rest else buffers st1 s)
    /\ calls st' = calls st1
         ++ [call_deserializeBinaryBulk to_indexes_type
               (length (getIndexes (column st1))) stream limit].
Proof.
  intros Hg Hdec. unfold deserialize_DictionaryIndexes, call_deserialize.
  rewrite Hg, Hdec. simpl. eexists. split; [reflexivity|]. simpl.
  split; [reflexivity|]. split; [reflexivity|]. split; [|reflexivity].
  intros s. destruct (decide (s = stream)) as [->|Hne].
  - rewrite fn_lookup_insert. reflexivity.
  - rewrite fn_lookup_insert_ne by congruence. reflexivity.
Qed.

(** C3: the dictionary payload is read iff the getter gives a source for the
    DictionaryElements sub-path and the column is empty.  Then the 8 bytes of
    the stored count are read, the element type's bulk decoding is called
    with that count as its limit on an empty staging column, and the whole
    staged batch is range-inserted into the column's store.  Afterwards, with
    a source for the DictionaryIndexes sub-path, the index type's bulk
    decoding is called with the limit of the call on the column's index
    array, which takes its result. *)
Theorem dictionary_payload_read getter limit path (st : State V) :
  deserialize getter limit path st
  = (st1 ← read_elements getter (path ++ [DictionaryElements]) st;
     read_indexes getter limit (path ++ [DictionaryIndexes]) st1)
  /\ (getter (path ++ [DictionaryElements]) = None \/ empty (column st) = false ->
      read_elements getter (path ++ [DictionaryElements]) st = Ok st)
  /\ (forall stream staged rest,
        getter (path ++ [DictionaryElements]) = Some stream ->
        empty (column st) = true ->
        8 <= length (buffers st stream) ->
        Nested.deserializeBinaryBulk dictionary_type []
          (drop 8 (buffers st stream))
          (Z.to_nat (le_value (take 8 (buffers st stream)))) = Ok (staged, rest) ->
        exists st1 codes,
          read_elements getter (path ++ [DictionaryElements]) st = Ok st1
          /\ uniqueInsertRangeFrom (getUnique (column st)) staged 0 (length staged)
             = Ok (getUnique (column st1), codes)
          /\ getIndexes (column st1) = getIndexes (column st)
          /\ (forall s, buffers st1 s = if decide (s = stream) then rest else buffers st s)
          /\ calls st1 = calls st
               ++ [call_deserializeBinaryBulk to_dictionary_type 0 stream
                     (Z.to_nat (le_value (take 8 (buffers st stream))))])
  /\ (forall (st1 : State V) stream indexes rest,
        getter (path ++ [DictionaryIndexes]) = Some stream ->
        Nested.deserializeBinaryBulk indexes_type (getIndexes (column st1))
          (buffers st1 stream) limit = Ok (indexes, rest) ->
        exists st',
          read_indexes getter limit (path ++ [DictionaryIndexes]) st1 = Ok st'
          /\ getIndexes (column st') = indexes
          /\ getUnique (column st') = getUnique (column st1)
          /\ (forall s, buffers st' s = if decide (s = stream) then rest else buffers st1 s)
          /\ calls st' = calls st1
               ++ [call_deserializeBinaryBulk to_indexes_type
                     (length (getIndexes (column st1))) stream limit])
  /\ (forall st1 : State V, getter (path ++ [DictionaryIndexes]) = None ->
                  read_indexes getter limit (path ++ [DictionaryIndexes]) st1 = Ok st1).
Proof.
  split; [apply deserialize_blocks|].
  split; [apply read_elements_skipped|].
  split; [intros; eapply read_elements_read; eassumption|].
  split; [intros; eapply read_indexes_read; eassumption|].
  intros st1 Hg. unfold deserialize_DictionaryIndexes. rewrite Hg. reflexivity.
Qed.
End DeserializationProperties.

(** ** The store and single-value decoding *)

Section StoreProperties.
Context {V : Type} `{EqDecision V}.

(** Looking up a value staged at the end of the store's column: an earlier
    row when the store held it, the staged row otherwise. *)
Lemma find_staged (l : list V) (x : V) :
  exists code,
    list_find (x =.) (l ++ [x]) = Some (code, x)
    /\ (((x ∈ l) /\ code < length l /\ l !! code = Some x)
        \/ ((x ∉ l) /\ code = length l)).
Proof.
  destruct (list_find (x =.) l) as [[i y]|] eqn:E.
  - pose proof E as E'. apply list_find_Some in E' as (Hi & <- & _).
    exists i. split.
    + apply list_find_app_Some. left. exact E.
    + left. split; [apply list_elem_of_lookup; eauto|].
      split; [eapply lookup_lt_Some; eauto | exact Hi].
  - exists (length l). split.
    + apply list_find_app_Some. right. split; [lia|]. split; [exact E|].
      rewrite Nat.sub_diag. simpl. rewrite decide_True by reflexivity. reflexivity.
    + right. split; [|reflexivity].
      apply list_find_None in E. intros Hin.
      rewrite list.Forall_forall in E. exact (E x Hin eq_refl).
Qed.

Lemma uniqueInsert_spec (u : ColumnUnique V) (x : V) :
  let nested := getNestedColumn u in
  ((x ∈ nested) /\ exists code, uniqueInsert u x = (u, code)
                              /\ code < length nested /\ nested !! code = Some x)
  \/ ((x ∉ nested)
      /\ uniqueInsert u x = (mkColumnUnique (nested ++ [x]), length nested)).
Proof.
  intros nested. unfold uniqueInsert. fold nested.
  destruct (list_find (x =.) nested) as [[i y]|] eqn:E.
  - left. apply list_find_Some in E as (Hi & <- & _).
    split; [apply list_elem_of_lookup; eauto|].
    exists i. split; [reflexivity|]. split; [eapply lookup_lt_Some; eauto | exact Hi].
  - right. split; [|reflexivity].
    apply list_find_None in E. intros Hin.
    rewrite list.Forall_forall in E. exact (E x Hin eq_refl).
Qed.

Lemma NoDup_snoc_fresh (l : list V) (x : V) : NoDup l -> x ∉ l -> NoDup (l ++ [x]).
Proof.
  intros Hl Hx. apply list.NoDup_app. split; [exact Hl|]. split.
  - intros y Hy Hy'. apply list_elem_of_singleton in Hy'. subst. contradiction.
  - apply NoDup_singleton.
Qed.

Lemma find_staged_eq (l : list V) (x : V) :
  list_find (x =.) (l ++ [x])
  = match list_find (x =.) l with
    | Some found => Some found
    | None => Some (length l, x)
    end.
Proof.
  destruct (list_find (x =.) l) as [[i y]|] eqn:E.
  - apply list_find_app_Some. left. exact E.
  - apply list_find_app_Some. right. split; [lia|]. split; [exact E|].
    rewrite Nat.sub_diag. simpl. rewrite decide_True by reflexivity. reflexivity.
Qed.

Lemma popBack_staged (l : list V) (x : V) : popBack (l ++ [x]) 1 = l.
Proof.
  unfold popBack. rewrite length_app. simpl.
  replace (length l + 1 - 1) with (length l) by lia. apply take_app_length.
Qed.

Lemma wrapped_code_le (index_bits code : nat) : code mod 2 ^ index_bits <= code.
Proof. apply Nat.Div0.mod_le. Qed.

(** What a single-value decode that stages one value leaves: the code the
    store gives the value (an earlier row, or the staged row) is written
    into the index array of [index_bits] bits, and the staged row is kept
    only when the code read back is the store's former size. *)
Lemma deserializeImpl_step index_bits istr func (st : State V) (x : V)
      (rest : list byte) :
  let nested := getNestedColumn (getUnique (column st)) in
  let code := match list_find (x =.) nested with
              | Some found => found.1
              | None => length nested
              end in
  let stored := code mod 2 ^ index_bits in
  func nested (buffers st istr) = Ok (nested ++ [x], rest) ->
  deserializeImpl index_bits istr func st
  = Ok (mkState
          (mkColumnWithDictionary
             (mkColumnUnique (if decide (stored <> length nested)
                              then nested else nested ++ [x]))
             (getIndexes (column st) ++ [stored]))
          (<[istr := rest]> (buffers st))
          (calls st ++ [call_deserialize_func to_dictionary_type (length nested) istr])).
Proof.
  destruct st as [[[nested] indexes] bufs log]. simpl. intros Hfunc.
  unfold deserializeImpl. simpl. rewrite Hfunc. simpl.
  unfold insertFrom, uniqueInsertFrom. simpl.
  rewrite (list_lookup_middle nested [] x (length nested) eq_refl). simpl.
  unfold uniqueInsert. simpl. rewrite find_staged_eq.
  set (code := match list_find (x =.) nested with
               | Some found => found.1
               | None => length nested
               end).
  assert (E : match list_find (x =.) nested with
              | Some found => Some found
              | None => Some (length nested, x)
              end = Some (code, x)).
  { subst code. destruct (list_find (x =.) nested) as [[i y]|] eqn:Hfind; simpl.
    - apply list_find_Some in Hfind as (_ & <- & _). reflexivity.
    - reflexivity. }
  rewrite E. simpl. unfold insert_index, getUInt, size. simpl.
  rewrite (list_lookup_middle indexes [] _ _ eq_refl). simpl.
  destruct (decide (code mod 2 ^ index_bits <> length nested)); simpl.
  - rewrite popBack_staged. reflexivity.
  - reflexivity.
Qed.

(** C5 (as amended): a single-value decode that stages one value at the end
    of the store makes the index array one longer.  A value the store
    already held leaves the store as it was (the staged row is trimmed) and
    appends the earlier code as the index array holds it.  A new value makes
    the store one longer and appends the store's former size, provided that
    size is below 2^w, w the width of the index array.  Under the same
    proviso the new row stands for the decoded value and a well-formed
    column stays well formed. *)
Theorem deserializeImpl_inserts index_bits istr func (st : State V) (x : V)
        (rest : list byte) :
  let nested := getNestedColumn (getUnique (column st)) in
  func nested (buffers st istr) = Ok (nested ++ [x], rest) ->
  exists st',
    deserializeImpl index_bits istr func st = Ok st'
    /\ length (getIndexes (column st')) = length (getIndexes (column st)) + 1
    /\ (x ∈ nested ->
        getNestedColumn (getUnique (column st')) = nested
        /\ exists code, code < length nested /\ nested !! code = Some x
                        /\ getIndexes (column st')
                           = getIndexes (column st) ++ [code mod 2 ^ index_bits])
    /\ (x ∉ nested -> length nested < 2 ^ index_bits ->
        getNestedColumn (getUnique (column st')) = nested ++ [x]
        /\ getIndexes (column st') = getIndexes (column st) ++ [length nested])
    /\ (length nested < 2 ^ index_bits ->
        value_at (column st') (size (column st)) = Some x)
    /\ (length nested < 2 ^ index_bits ->
        well_formed (column st) -> well_formed (column st')).
Proof.
  intros nested Hfunc.
  rewrite (deserializeImpl_step index_bits istr func st x rest Hfunc).
  fold nested. eexists. split; [reflexivity|]. simpl.
  split; [rewrite length_app; reflexivity|].
  destruct (list_find (x =.) nested) as [[i y]|] eqn:Hfind; simpl.
  - apply list_find_Some in Hfind as (Hi & <- & _).
    pose proof (lookup_lt_Some _ _ _ Hi) as Hlt.
    pose proof (wrapped_code_le index_bits i) as Hle.
    assert (Hin : x ∈ nested) by (apply list_elem_of_lookup; eauto).
    rewrite decide_True by lia.
    split; [intros _; split; [reflexivity|]; exists i; auto|].
    split; [intros Hnin; contradiction|].
    split.
    + intros Hfit. rewrite Nat.mod_small by lia. unfold value_at, size. simpl.
      rewrite (list_lookup_middle (getIndexes (column st)) [] i _ eq_refl).
      simpl. exact Hi.
    + intros Hfit [Hnd Hcodes]. split; simpl; [exact Hnd|].
      apply list.Forall_app. split; [exact Hcodes|]. apply Forall_singleton.
      fold nested. lia.
  - apply list_find_None in Hfind.
    assert (Hnin : x ∉ nested).
    { intros Hin. rewrite list.Forall_forall in Hfind. exact (Hfind x Hin eq_refl). }
    split; [intros Hin; contradiction|].
    split; [|split].
    + intros _ Hfit. rewrite Nat.mod_small by exact Hfit.
      rewrite decide_False by lia. split; reflexivity.
    + intros Hfit. rewrite Nat.mod_small by exact Hfit.
      rewrite decide_False by lia. unfold value_at, size. simpl.
      rewrite (list_lookup_middle (getIndexes (column st)) [] _ _ eq_refl).
      simpl. apply list_lookup_middle. reflexivity.
    + intros Hfit [Hnd Hcodes]. rewrite Nat.mod_small by exact Hfit.
      rewrite decide_False by lia. split; simpl.
      * apply NoDup_snoc_fresh; assumption.
      * apply list.Forall_app. split.
        -- eapply list.Forall_impl; [exact Hcodes|]. intros c Hc. simpl in Hc.
           rewrite length_app. simpl. fold nested in Hc. lia.
        -- apply Forall_singleton. rewrite length_app. simpl. lia.
Qed.
End StoreProperties.

(** ** Columns built by single-row inserts *)

Section InsertProperties.
Context {V : Type} `{EqDecision V}.

Lemma insert_all_snoc (values : list V) (x : V) :
  insert_all (values ++ [x]) = insert (insert_all values) x.
Proof. unfold insert_all. rewrite foldl_app. reflexivity. Qed.

Lemma insert_spec (c : ColumnWithDictionary V) (x : V) :
  well_formed c ->
  well_formed (insert c x)
  /\ size (insert c x) = size c + 1
  /\ value_at (insert c x) (size c) = Some x
  /\ (forall k, k < size c -> value_at (insert c x) k = value_at c k).
Proof.
  intros [Hnd Hcodes]. unfold insert, size, value_at.
  destruct (uniqueInsert_spec (getUnique c) x)
    as [(Hin & code & -> & Hlt & Hcode) | (Hnin & ->)]; simpl.
  - split; [split; simpl; [exact Hnd|]|].
    { apply list.Forall_app. split; [exact Hcodes | apply Forall_singleton; exact Hlt]. }
    split; [rewrite length_app; reflexivity|]. split.
    + rewrite (list_lookup_middle (getIndexes c) [] code _ eq_refl). exact Hcode.
    + intros k Hk. rewrite lookup_app_l by exact Hk. reflexivity.
  - split; [split; simpl|].
    { apply NoDup_snoc_fresh; assumption. }
    { apply list.Forall_app. split.
      - eapply list.Forall_impl; [exact Hcodes|]. intros c' Hc'. simpl in Hc'.
        rewrite length_app. simpl. lia.
      - apply Forall_singleton. rewrite length_app. simpl. lia. }
    split; [rewrite length_app; reflexivity|]. split.
    + rewrite (list_lookup_middle (getIndexes c) [] _ _ eq_refl). simpl.
      apply list_lookup_middle. reflexivity.
    + intros k Hk. rewrite lookup_app_l by exact Hk.
      destruct (getIndexes c !! k) as [code|] eqn:E; simpl; [|reflexivity].
      rewrite list.Forall_forall in Hcodes.
      apply lookup_app_l. apply Hcodes. apply list_elem_of_lookup. eauto.
Qed.

(** The column built from [values] is well formed, has one row per value,
    and its rows stand for the values in order. *)
Lemma insert_all_spec (values : list V) :
  well_formed (insert_all values)
  /\ size (insert_all values) = length values
  /\ (forall k, value_at (insert_all values) k = values !! k).
Proof.
  induction values as [|x values (Hwf & Hsize & Hval)] using rev_ind.
  - split; [split; simpl; [apply NoDup_nil_2 | apply Forall_nil_2]|].
    split; [reflexivity|]. intros k. unfold value_at. simpl.
    rewrite lookup_nil. reflexivity.
  - rewrite insert_all_snoc.
    destruct (insert_spec (insert_all values) x Hwf) as (Hwf' & Hsize' & Hnew & Hold).
    split; [exact Hwf'|]. split; [rewrite Hsize', length_app, Hsize; reflexivity|].
    intros k. destruct (decide (k < length values)) as [Hk|Hk].
    + rewrite Hold by lia. rewrite lookup_app_l by exact Hk. apply Hval.
    + destruct (decide (k = length values)) as [->|Hne].
      * rewrite <- Hsize at 1. rewrite Hnew.
        symmetry. apply list_lookup_middle. reflexivity.
      * rewrite (lookup_ge_None_2 (values ++ [x]) k)
          by (rewrite length_app; simpl; lia).
        unfold value_at.
        rewrite (lookup_ge_None_2 (getIndexes (insert (insert_all values) x)) k);
          [reflexivity|].
        fold (size (insert (insert_all values) x)). lia.
Qed.

(** Range-inserting a batch without repetitions, none of them in the store,
    appends the batch to the store in order. *)
Lemma range_insert_fresh (src pre : list V) (acc : ColumnUnique V * list nat) :
  acc.1 = mkColumnUnique pre ->
  NoDup (pre ++ src) ->
  (foldl (fun acc x =>
            let '(u', code) := uniqueInsert acc.1 x in (u', acc.2 ++ [code]))
         acc src).1 = mkColumnUnique (pre ++ src).
Proof.
  revert pre acc; induction src as [|x src IH]; intros pre acc Hacc Hnd.
  - simpl. rewrite app_nil_r. exact Hacc.
  - cbn [foldl]. rewrite Hacc.
    destruct (uniqueInsert_spec (mkColumnUnique pre) x)
      as [(Hin & _) | (_ & ->)]; simpl in *.
    + exfalso. apply list.NoDup_app in Hnd as (_ & Hdisj & _).
      apply (Hdisj x Hin). left.
    + rewrite (IH (pre ++ [x])); [rewrite <- app_assoc; reflexivity | reflexivity |].
      rewrite <- app_assoc. exact Hnd.
Qed.

Lemma uniqueInsertRangeFrom_empty (src : list V) :
  NoDup src ->
  exists codes,
    uniqueInsertRangeFrom (mkColumnUnique []) src 0 (length src)
    = Ok (mkColumnUnique src, codes).
Proof.
  intros Hnd. unfold uniqueInsertRangeFrom. rewrite decide_True by (simpl; lia).
  rewrite drop_0, take_ge by lia.
  pose proof (range_insert_fresh src [] (mkColumnUnique [], []) eq_refl Hnd) as E.
  destruct (foldl _ _ src) as [u codes]. simpl in E. subst u. eauto.
Qed.
End InsertProperties.

(** ** Round trip *)

Section RoundTrip.
Context {V Field : Type} `{EqDecision V}.
Variable dictionary_type : Nested.DataType (list V) Field.
Variable indexes_type : Nested.DataType (list nat) Field.

(** What a pass over the whole column, started on empty buffers, leaves in
    the buffers the getter gave for the two sub-paths. *)
Lemma written_buffers getter path limit (c : ColumnWithDictionary V) e i :
  getter (path ++ [DictionaryElements]) = Some e ->
  getter (path ++ [DictionaryIndexes]) = Some i ->
  let payload := le_bytes 8 (to_UInt64 (length (getNestedColumn (getUnique c))))
                   ++ Nested.serializeBinaryBulk dictionary_type
                        (getNestedColumn (getUnique c)) 0 0 in
  let codes := Nested.serializeBinaryBulk indexes_type (getIndexes c) 0 limit in
  let written :=
    serializeBinaryBulkWithMultipleStreams dictionary_type indexes_type
      getter 0 limit path (mkState c no_bytes []) in
  buffers written e = payload ++ (if decide (e = i) then codes else [])
  /\ (e <> i -> buffers written i = codes)
  /\ forall s, s <> e -> s <> i -> buffers written s = [].
Proof.
  intros He Hi payload codes written. subst written.
  rewrite serialize_blocks.
  destruct (elements_block_written dictionary_type getter
              (path ++ [DictionaryElements]) (mkState c no_bytes []) e He) as [Hb Hc].
  assert (Hb' : forall s,
             buffers (serialize_DictionaryElements dictionary_type getter 0
                        (path ++ [DictionaryElements]) (mkState c no_bytes [])) s
             = if decide (s = e) then payload else []).
  { intros s. rewrite Hb. reflexivity. }
  unfold serialize_DictionaryIndexes. rewrite Hi.
  rewrite elements_block_column. unfold call_serialize, called, write.
  cbn [buffers column]. fold codes. split; [|split].
  - destruct (decide (e = i)) as [<-|Hne].
    + rewrite fn_lookup_insert, Hb', decide_True by reflexivity. reflexivity.
    + rewrite fn_lookup_insert_ne by congruence.
      rewrite Hb', decide_True by reflexivity. rewrite app_nil_r. reflexivity.
  - intros Hne. rewrite fn_lookup_insert, Hb', decide_False by congruence. reflexivity.
  - intros s Hse Hsi. rewrite fn_lookup_insert_ne by congruence.
    rewrite Hb', decide_False by exact Hse. reflexivity.
Qed.

(** C1: a column built by single-row inserts, serialized over its whole row
    range and deserialized into a freshly materialized empty column through
    the same getter, gives a column with the same number of rows whose row
    [k] stands for the [k]-th inserted value; the count persisted first on
    the elements sub-path is the store's size (0 for the empty column).  The
    nested types are assumed to decode what they encode. *)
Theorem bulk_roundtrip (values : list V) getter path e i :
  let c := insert_all values in
  let nested := getNestedColumn (getUnique c) in
  let written :=
    serializeBinaryBulkWithMultipleStreams dictionary_type indexes_type
      getter 0 (length values) path (mkState c no_bytes []) in
  getter (path ++ [DictionaryElements]) = Some e ->
  getter (path ++ [DictionaryIndexes]) = Some i ->
  (Z.of_nat (length nested) < 2 ^ 64)%Z ->
  (forall rest,
     Nested.deserializeBinaryBulk dictionary_type []
       (Nested.serializeBinaryBulk dictionary_type nested 0 0 ++ rest)
       (length nested) = Ok (nested, rest)) ->
  (forall rest,
     Nested.deserializeBinaryBulk indexes_type []
       (Nested.serializeBinaryBulk indexes_type (getIndexes c) 0 (length values) ++ rest)
       (length values) = Ok (getIndexes c, rest)) ->
  exists st',
    deserializeBinaryBulkWithMultipleStreams dictionary_type indexes_type
      getter (length values) path
      (mkState ColumnWithDictionary_empty (buffers written) []) = Ok st'
    /\ size (column st') = length values
    /\ (forall k, value_at (column st') k = values !! k)
    /\ (forall k, value_at (column st') k = value_at c k)
    /\ le_value (take 8 (buffers written e)) = Z.of_nat (length nested).
Proof.
  intros c nested written He Hi Hsize Hdict Hidx.
  destruct (insert_all_spec values) as ([Hnd _] & Hrows & Hval).
  fold c in Hnd, Hrows, Hval. fold nested in Hnd.
  destruct (written_buffers getter path (length values) c e i He Hi)
    as (Hbe & Hbi & _).
  fold written in Hbe, Hbi. fold nested in Hbe. cbv zeta in Hbe, Hbi.
  set (codes := Nested.serializeBinaryBulk indexes_type (getIndexes c) 0 (length values))
    in *.
  set (tail := if decide (e = i) then codes else []) in *.
  assert (Htake : take 8 (buffers written e) = le_bytes 8 (to_UInt64 (length nested))).
  { rewrite Hbe, <- !app_assoc. apply take_app_length'. symmetry. apply length_le_bytes. }
  assert (Hdrop : drop 8 (buffers written e)
                  = Nested.serializeBinaryBulk dictionary_type nested 0 0 ++ tail).
  { rewrite Hbe, <- !app_assoc. apply drop_app_length'. symmetry. apply length_le_bytes. }
  assert (Hcount : Z.to_nat (le_value (take 8 (buffers written e))) = length nested).
  { rewrite Htake, le_value_UInt64. apply to_UInt64_small. exact Hsize. }
  rewrite deserialize_blocks.
  destruct (read_elements_read dictionary_type getter (path ++ [DictionaryElements])
              (mkState ColumnWithDictionary_empty (buffers written) []) e nested tail)
    as (st1 & codes1 & Hread & Hins & Hidx1 & Hb1 & _).
  { exact He. }
  { reflexivity. }
  { simpl. rewrite Hbe, !length_app, length_le_bytes. lia. }
  { simpl. rewrite Hcount, Hdrop. apply Hdict. }
  rewrite Hread. simpl in Hins, Hidx1, Hb1 |- *.
  destruct (uniqueInsertRangeFrom_empty nested Hnd) as (codes2 & Hins2).
  rewrite Hins2 in Hins. injection Hins as Hunique _.
  destruct (read_indexes_read indexes_type getter (length values)
              (path ++ [DictionaryIndexes]) st1 i (getIndexes c) [])
    as (st' & Hread' & Hidx' & Hunique' & _).
  { exact Hi. }
  { rewrite Hidx1, Hb1. replace (if decide (i = e) then tail else buffers written i)
      with (codes ++ []).
    - apply Hidx.
    - rewrite app_nil_r. subst tail.
      destruct (decide (i = e)) as [->|Hne].
      + rewrite decide_True by reflexivity. reflexivity.
      + symmetry. apply Hbi. congruence. }
  exists st'. split; [exact Hread'|].
  assert (Hcol : column st' = c).
  { destruct (column st') as [u' idx']. simpl in *. subst idx'. rewrite Hunique', <- Hunique.
    subst nested. destruct c as [[n] ix]. reflexivity. }
  rewrite Hcol. split; [exact Hrows|]. split; [exact Hval|]. split; [reflexivity|].
  rewrite Htake, le_value_UInt64. unfold to_UInt64. apply Z.mod_small. lia.
Qed.
End RoundTrip.


(** ** The scenario of the spec: rows "a", "b", "a", "c" *)

Lemma bulk_roundtrip_witness :
  exists st',
    deserializeBinaryBulkWithMultipleStreams UInt8_elements UInt8_indexes
      two_streams 4 [] abac_source = Ok st'
    /\ size (column st') = 4
    /\ (forall k, value_at (column st') k = rows_abac !! k).
Proof.
  destruct (bulk_roundtrip UInt8_elements UInt8_indexes rows_abac two_streams [] 0 1
              ltac:(vm_compute; reflexivity) ltac:(vm_compute; reflexivity)
              ltac:(vm_compute; reflexivity)
              ltac:(intros rest; vm_compute; reflexivity)
              ltac:(intros rest; vm_compute; reflexivity))
    as (st' & Hread & Hsize & Hval & _).
  exists st'. split; [exact Hread|]. split; [exact Hsize | exact Hval].
Defined.

Lemma dictionary_payload_written_witness :
  calls (serialize_DictionaryElements UInt8_elements two_streams 0
           ([] ++ [DictionaryElements]) abac_state)
  = [call_serializeBinaryBulk to_dictionary_type 3 0 0 0]
  /\ exists after,
       buffers abac_written 0
       = buffers abac_state 0 ++ le_bytes 8 (to_UInt64 3)
           ++ Nested.serializeBinaryBulk UInt8_elements [97; 98; 99]%Z 0 3 ++ after.
Proof.
  destruct (dictionary_payload_written UInt8_elements UInt8_indexes
              two_streams 0 4 [] abac_state)
    as (_ & Hwritten & _ & _ & _ & Hfull & _).
  destruct (Hwritten 0 ltac:(vm_compute; reflexivity) eq_refl) as (_ & Hcalls & _).
  destruct (Hfull 0 ltac:(vm_compute; reflexivity) eq_refl) as (_ & _ & Hsize).
  split; [exact Hcalls|].
  exact (Hsize ltac:(vm_compute; reflexivity)).
Defined.

Lemma dictionary_payload_read_witness :
  exists st1,
    deserialize_DictionaryElements UInt8_elements two_streams
      ([] ++ [DictionaryElements]) abac_source = Ok st1
    /\ getNestedColumn (getUnique (column st1)) = [97; 98; 99]%Z
    /\ calls st1 = [call_deserializeBinaryBulk to_dictionary_type 0 0 3].
Proof.
  destruct (dictionary_payload_read UInt8_elements UInt8_indexes
              two_streams 4 [] abac_source) as (_ & _ & Hread & _).
  destruct (Hread 0 [97; 98; 99]%Z []
                  ltac:(vm_compute; reflexivity) ltac:(vm_compute; reflexivity)
                  ltac:(vm_compute; lia) ltac:(vm_compute; reflexivity))
    as (st1 & codes & Hst1 & Hins & _ & _ & Hcalls).
  exists st1. split; [exact Hst1|]. split; [|exact Hcalls].
  assert (E : uniqueInsertRangeFrom (getUnique (column abac_source))
                                    [97; 98; 99]%Z 0 (length [97; 98; 99]%Z)
              = Ok (mkColumnUnique [97; 98; 99]%Z, [0; 1; 2]))
    by (vm_compute; reflexivity).
  rewrite E in Hins. injection Hins as Hunique _. rewrite <- Hunique. reflexivity.
Defined.

Lemma indexes_range_serialized_witness :
  calls abac_written
  = calls (serialize_DictionaryElements UInt8_elements two_streams 0
             ([] ++ [DictionaryElements]) abac_state)
    ++ [call_serializeBinaryBulk to_indexes_type 4 1 0 4]
  /\ exists before,
       buffers abac_written 1
       = before
           ++ concat ((fun code => [(Z.of_nat code mod 256)%Z])
                        <$> take 4 (drop 0 (getIndexes (column abac_state)))).
Proof.
  destruct (indexes_range_serialized UInt8_elements UInt8_indexes
              two_streams 0 4 [] abac_state) as (Hwritten & _ & _ & _ & _ & _ & Hrows).
  destruct (Hwritten 1 ltac:(vm_compute; reflexivity)) as (_ & Hcalls).
  split; [exact Hcalls|].
  destruct (Hrows (fun code => [(Z.of_nat code mod 256)%Z]) 1
                  ltac:(vm_compute; reflexivity) ltac:(vm_compute; reflexivity))
    as (before & Hbuf & _).
  exists before. exact Hbuf.
Defined.

Lemma deserializeImpl_inserts_witness :
  exists st',
    deserializeImpl 8 0 UInt8_deserialize_value
      (mkState (insert_all rows_abac) (fun _ => [100; 98]%Z) []) = Ok st'
    /\ getNestedColumn (getUnique (column st')) = [97; 98; 99; 100]%Z
    /\ getIndexes (column st') = [0; 1; 0; 2; 3]
    /\ value_at (column st') 4 = Some 100%Z.
Proof.
  destruct (deserializeImpl_inserts 8 0 UInt8_deserialize_value
              (mkState (insert_all rows_abac) (fun _ => [100; 98]%Z) [])
              100%Z [98%Z] ltac:(vm_compute; reflexivity))
    as (st' & Hst' & _ & _ & Hnew & Hval & _).
  assert (Hnin : (100%Z : Z) ∉ getNestedColumn (getUnique (insert_all rows_abac))).
  { intros Hin. apply list_elem_of_In in Hin. vm_compute in Hin.
    destruct Hin as [E | [E | [E | []]]]; discriminate E. }
  assert (Hfit : length (getNestedColumn (getUnique (insert_all rows_abac))) < 2 ^ 8)
    by (vm_compute; lia).
  destruct (Hnew Hnin Hfit) as [Hstore Hindexes].
  exists st'. split; [exact Hst'|]. split; [exact Hstore|].
  split; [exact Hindexes | exact (Hval Hfit)].
Defined.

(** C5, as the claim states it, at a store that fills the index width: the
    column of 16-bit numbers with 8-bit codes holds the 256 values 0..255;
    decoding the new value 256 appends the code 0 (256 wrapped to 8 bits),
    which differs from the former size 256, so the staged row is trimmed:
    the store does not grow, and the new row stands for the value 0. *)
Lemma deserializeImpl_full_index_counterexample :
  exists st',
    deserializeImpl 8 0 UInt16_deserialize_value full_UInt8_state = Ok st'
    /\ ~ In 256%Z (getNestedColumn (getUnique (column full_UInt8_state)))
    /\ length (getNestedColumn (getUnique (column full_UInt8_state))) = 256
    /\ length (getNestedColumn (getUnique (column st'))) = 256
    /\ getIndexes (column st') !! 256 = Some 0
    /\ value_at (column st') 256 = Some 0%Z.
Proof.
  destruct (deserializeImpl 8 0 UInt16_deserialize_value full_UInt8_state)
    as [st'| |] eqn:Hst'; vm_compute in Hst'; try discriminate Hst'.
  injection Hst' as <-. eexists. split; [reflexivity|].
  split.
  - vm_compute. intros Hin.
    repeat (destruct Hin as [E | Hin]; [discriminate E|]). exact Hin.
  - split; [vm_compute; reflexivity|]. split; [vm_compute; reflexivity|].
    split; vm_compute; reflexivity.
Qed.

Lemma serializeImpl_delegates_witness :
  exists st',
    serializeImpl 2 0 UInt8_serialize_value abac_state = Ok st'
    /\ calls st' = [call_serialize_func to_dictionary_type 3 0 0].
Proof.
  destruct (serializeImpl_delegates 2 0 UInt8_serialize_value abac_state 0
              ltac:(vm_compute; reflexivity))
    as (st' & Hst' & _ & Hcalls & _).
  exists st'. split; [exact Hst' | exact Hcalls].
Defined.

(** * Further properties *)

(** ** Column creation and the factory entry *)

(** X1: the index dispatch of [createColumnImpl] succeeds exactly on the four
    unsigned integer types, pairing a store of the requested representation
    with an empty index array of the index type's width; on any other index
    type it throws LOGICAL_ERROR, with a message that names the element
    type. *)
Theorem createColumnImpl_index_dispatch (d i : IDataType) (C : ColumnType) :
  (forall T, i = DataTypeNumber T -> unsigned_integer_kind i ->
     createColumnImpl d i C
     = Ok (ColumnWithDictionary_create (ColumnUnique_create C T d)
                                       (EmptyColumn (ColumnVector T))))
  /\ (~ unsigned_integer_kind i ->
      createColumnImpl d i C
      = Throw (mkException
                 ("The type of indexes must be unsigned integer, but got "
                    +:+ getName d) LOGICAL_ERROR)).
Proof.
  split.
  - intros T -> [E | [E | [E | E]]]; injection E as ->; reflexivity.
  - intros Hi. unfold createColumnImpl, typeid_cast.
    destruct i as [[]| | | | | | | |]; simpl; try reflexivity;
      exfalso; apply Hi; unfold unsigned_integer_kind; tauto.
Qed.

Lemma createColumnImpl_index_dispatch_witness :
  createColumnImpl DataTypeString DataTypeUInt16 ColumnString
  = Ok (ColumnWithDictionary_create
          (ColumnUnique_create ColumnString UInt16 DataTypeString)
          (EmptyColumn (ColumnVector UInt16)))
  /\ createColumnImpl DataTypeString (DataTypeNumber Int8) ColumnString
     = Throw (mkException
                "The type of indexes must be unsigned integer, but got String"
                LOGICAL_ERROR).
Proof.
  split.
  - apply (createColumnImpl_index_dispatch DataTypeString DataTypeUInt16 ColumnString).
    + reflexivity.
    + right; left; reflexivity.
  - apply (createColumnImpl_index_dispatch DataTypeString (DataTypeNumber Int8)
                                           ColumnString).
    intros [E | [E | [E | E]]]; discriminate E.
Defined.

(** X2: on a pair the constructor accepts, [createColumn] throws if and only
    if the element type is an optional number, and then with LOGICAL_ERROR;
    on every other accepted pair it returns the store of the unwrapped
    element type's representation with an empty index array of the index
    type. *)
Theorem createColumn_on_accepted (d i t : IDataType) :
  DataTypeWithDictionary d i = Ok t ->
  ((exists T, d = DataTypeNullable (DataTypeNumber T))
   <-> exists e, createColumn d i = Throw e)
  /\ (forall e, createColumn d i = Throw e -> code e = LOGICAL_ERROR)
  /\ ((forall T, d <> DataTypeNullable (DataTypeNumber T)) ->
      exists C IT,
        representation_of (unwrap_optional d) = Some C
        /\ i = DataTypeNumber IT
        /\ createColumn d i
           = Ok (ColumnWithDictionary_create (ColumnUnique_create C IT d)
                                             (EmptyColumn (ColumnVector IT)))).
Proof.
  intros Ht. apply DataTypeWithDictionary_inv in Ht as (_ & Hi & He).
  assert (Hcase : (exists T, d = DataTypeNullable (DataTypeNumber T))
                  \/ (forall T, d <> DataTypeNullable (DataTypeNumber T))).
  { destruct d as [| | | | | |inner| |]; try (right; intros ? E; discriminate E).
    destruct inner; try (right; intros ? E; discriminate E).
    left. eauto. }
  split; [split|split].
  - intros [T ->]. rewrite createColumn_nullable_number. eauto.
  - intros [e Hthrow]. destruct Hcase as [Hn | Hn]; [exact Hn|].
    destruct (createColumn_accepted d i Hi He Hn) as (C & IT & _ & _ & Hok).
    rewrite Hok in Hthrow. discriminate Hthrow.
  - intros e Hthrow. destruct Hcase as [[T ->] | Hn].
    + rewrite createColumn_nullable_number in Hthrow. injection Hthrow as <-.
      reflexivity.
    + destruct (createColumn_accepted d i Hi He Hn) as (C & IT & _ & _ & Hok).
      rewrite Hok in Hthrow. discriminate Hthrow.
  - intros Hn. apply createColumn_accepted; assumption.
Qed.

Lemma createColumn_on_accepted_witness :
  exists C IT,
    representation_of (unwrap_optional (DataTypeNullable DataTypeDate)) = Some C
    /\ DataTypeUInt32 = DataTypeNumber IT
    /\ createColumn (DataTypeNullable DataTypeDate) DataTypeUInt32
       = Ok (ColumnWithDictionary_create
               (ColumnUnique_create C IT (DataTypeNullable DataTypeDate))
               (EmptyColumn (ColumnVector IT))).
Proof.
  destruct (createColumn_on_accepted (DataTypeNullable DataTypeDate) DataTypeUInt32
              (WithDictionary (DataTypeNullable DataTypeDate) DataTypeUInt32)
              eq_refl) as (_ & _ & Hok).
  apply Hok. intros T E. discriminate E.
Defined.

(** X3: [create] throws NUMBER_OF_ARGUMENTS_DOESNT_MATCH when the argument
    list is null or has other than two children, whatever the factory does;
    with two children that the factory resolves, it is the constructor on
    the two types, element type first, in either order of evaluation; and it
    returns a type only for two resolved children of accepted kinds. *)
Theorem create_characterised (get : IAST -> Outcome IDataType) (order : bool)
        (arguments : option IAST) :
  ((arguments = None
    \/ exists node, arguments = Some node /\ length (children node) <> 2) ->
   exists msg, create get order arguments
               = Throw (mkException msg NUMBER_OF_ARGUMENTS_DOESNT_MATCH))
  /\ (forall txt a0 a1 d i,
        arguments = Some (mkIAST txt [a0; a1]) ->
        get a0 = Ok d -> get a1 = Ok i ->
        create get order arguments = DataTypeWithDictionary d i)
  /\ (forall t,
        create get order arguments = Ok t ->
        exists txt a0 a1 d i,
          arguments = Some (mkIAST txt [a0; a1])
          /\ get a0 = Ok d /\ get a1 = Ok i
          /\ t = WithDictionary d i
          /\ unsigned_integer_kind i
          /\ supported_element_kind (unwrap_optional d)).
Proof.
  split; [|split].
  - intros [-> | (node & -> & Hlen)]; simpl; [eauto|].
    rewrite bool_decide_eq_false_2 by exact Hlen. simpl. eauto.
  - intros txt a0 a1 d i -> H0 H1. simpl. rewrite H0, H1.
    destruct order; reflexivity.
  - intros t Hok. destruct arguments as [[txt args]|]; [|discriminate Hok].
    simpl in Hok.
    destruct args as [|a0 [|a1 [|a2 args]]]; simpl in Hok; try discriminate Hok.
    assert (Hboth : exists d i, get a0 = Ok d /\ get a1 = Ok i
                                /\ DataTypeWithDictionary d i = Ok t).
    { destruct order; simpl in Hok;
        destruct (get a0) as [d| |], (get a1) as [i| |]; simpl in Hok;
        try discriminate Hok; eauto. }
    destruct Hboth as (d & i & H0 & H1 & Hctor).
    apply DataTypeWithDictionary_inv in Hctor as (-> & Hi & He).
    exists txt, a0, a1, d, i. auto 10.
Qed.

Lemma create_characterised_witness :
  create sample_factory false
         (Some (mkIAST "WithDictionary" [mkIAST "String" []; mkIAST "UInt8" []]))
  = DataTypeWithDictionary DataTypeString DataTypeUInt8.
Proof.
  destruct (create_characterised sample_factory false
              (Some (mkIAST "WithDictionary" [mkIAST "String" []; mkIAST "UInt8" []])))
    as (_ & Hresolved & _).
  apply (Hresolved "WithDictionary"%string (mkIAST "String" []) (mkIAST "UInt8" []));
    reflexivity.
Defined.

(** X4: [equals] is transitive from a Dictionary Type: a type equal to a
    Dictionary Type is a Dictionary Type with equal element and index types,
    and equality carries over to whatever that type equals. *)
Theorem DataTypeWithDictionary_equals_trans (d i t2 t3 : IDataType) :
  equals (WithDictionary d i) t2 = true ->
  equals t2 t3 = true ->
  equals (WithDictionary d i) t3 = true
  /\ exists d3 i3, t3 = WithDictionary d3 i3
                   /\ equals d d3 = true /\ equals i i3 = true.
Proof.
  intros H12 H23. apply equals_eq in H12. apply equals_eq in H23. subst.
  split; [apply equals_refl|]. exists d, i. split; [reflexivity|].
  split; apply equals_refl.
Qed.

Lemma DataTypeWithDictionary_equals_trans_witness :
  equals (WithDictionary DataTypeString DataTypeUInt8)
         (WithDictionary DataTypeString DataTypeUInt8) = true.
Proof.
  apply (DataTypeWithDictionary_equals_trans DataTypeString DataTypeUInt8
           (WithDictionary DataTypeString DataTypeUInt8)
           (WithDictionary DataTypeString DataTypeUInt8)); reflexivity.
Defined.

(** ** Stream enumeration *)

(** X5: when each nested type reports only paths that extend the path it is
    started at, every path [enumerateStreams] reports extends the caller's
    path by the DictionaryElements or the DictionaryIndexes marker, the
    element type's paths come first, and no path of the element type is a
    path of the index type. *)
Theorem enumerateStreams_paths
        (dictionary_enumerateStreams indexes_enumerateStreams
           : SubstreamPath -> list SubstreamPath) (path : SubstreamPath) :
  (forall p q, q ∈ dictionary_enumerateStreams p -> p `prefix_of` q) ->
  (forall p q, q ∈ indexes_enumerateStreams p -> p `prefix_of` q) ->
  enumerateStreams dictionary_enumerateStreams indexes_enumerateStreams path
  = dictionary_enumerateStreams (path ++ [DictionaryElements])
    ++ indexes_enumerateStreams (path ++ [DictionaryIndexes])
  /\ (forall q,
        q ∈ enumerateStreams dictionary_enumerateStreams indexes_enumerateStreams path ->
        (path ++ [DictionaryElements]) `prefix_of` q
        \/ (path ++ [DictionaryIndexes]) `prefix_of` q)
  /\ (forall q,
        q ∈ dictionary_enumerateStreams (path ++ [DictionaryElements]) ->
        q ∉ indexes_enumerateStreams (path ++ [DictionaryIndexes])).
Proof.
  intros Hd Hi.
  assert (E : enumerateStreams dictionary_enumerateStreams indexes_enumerateStreams path
              = dictionary_enumerateStreams (path ++ [DictionaryElements])
                ++ indexes_enumerateStreams (path ++ [DictionaryIndexes])).
  { unfold enumerateStreams. rewrite set_back_push_back. reflexivity. }
  split; [exact E|]. split.
  - intros q Hq. rewrite E in Hq. apply elem_of_app in Hq as [Hq | Hq].
    + left. apply Hd. exact Hq.
    + right. apply Hi. exact Hq.
  - intros q Hq Hq'. apply Hd in Hq as [k1 E1]. apply Hi in Hq' as [k2 E2].
    rewrite E1, <- !app_assoc in E2. apply app_inv_head in E2.
    simpl in E2. discriminate E2.
Qed.

Lemma enumerateStreams_paths_witness :
  enumerateStreams (fun p => [p]) (fun p => [p]) [ArrayElements]
  = [[ArrayElements; DictionaryElements]; [ArrayElements; DictionaryIndexes]].
Proof.
  apply (enumerateStreams_paths (fun p => [p]) (fun p => [p]) [ArrayElements]).
  - intros p q Hq. apply list_elem_of_singleton in Hq. subst. reflexivity.
  - intros p q Hq. apply list_elem_of_singleton in Hq. subst. reflexivity.
Defined.

Section EnumerationAndProtocol.
Context {V Field : Type} `{EqDecision V}.
Variable dictionary_type : Nested.DataType (list V) Field.
Variable indexes_type : Nested.DataType (list nat) Field.

(** X6: when each nested type reports the path it is started at, bulk
    serialization and bulk deserialization consult the getter only on paths
    [enumerateStreams] reports: two getters that agree on those paths give
    the same result. *)
Theorem getter_used_on_enumerated_paths
        (dictionary_enumerateStreams indexes_enumerateStreams
           : SubstreamPath -> list SubstreamPath)
        (getter1 getter2 : SubstreamPath -> option StreamId)
        offset limit path (st : State V) :
  (forall p, p ∈ dictionary_enumerateStreams p) ->
  (forall p, p ∈ indexes_enumerateStreams p) ->
  (forall p,
     p ∈ enumerateStreams dictionary_enumerateStreams indexes_enumerateStreams path ->
     getter1 p = getter2 p) ->
  serializeBinaryBulkWithMultipleStreams dictionary_type indexes_type
    getter1 offset limit path st
  = serializeBinaryBulkWithMultipleStreams dictionary_type indexes_type
      getter2 offset limit path st
  /\ deserializeBinaryBulkWithMultipleStreams dictionary_type indexes_type
       getter1 limit path st
     = deserializeBinaryBulkWithMultipleStreams dictionary_type indexes_type
         getter2 limit path st.
Proof.
  intros Hd Hi Hagree.
  assert (He : getter1 (path ++ [DictionaryElements])
               = getter2 (path ++ [DictionaryElements])).
  { apply Hagree. unfold enumerateStreams. apply elem_of_app. left. apply Hd. }
  assert (Hx : getter1 (path ++ [DictionaryIndexes])
               = getter2 (path ++ [DictionaryIndexes])).
  { apply Hagree. unfold enumerateStreams. rewrite set_back_push_back.
    apply elem_of_app. right. apply Hi. }
  split.
  - rewrite !serialize_blocks.
    unfold serialize_DictionaryIndexes, serialize_DictionaryElements.
    rewrite He, Hx. reflexivity.
  - rewrite !deserialize_blocks.
    unfold deserialize_DictionaryIndexes, deserialize_DictionaryElements.
    rewrite He. destruct (match getter2 _ with Some _ => _ | None => _ end);
      simpl; [rewrite Hx|..]; reflexivity.
Qed.

Lemma indexes_block_buffers getter offset limit path (st : State V) s :
  buffers (serialize_DictionaryIndexes indexes_type getter offset limit path st) s
  = match getter path with
    | Some i =>
        if decide (s = i)
        then buffers st i
               ++ Nested.serializeBinaryBulk indexes_type (getIndexes (column st))
                    offset limit
        else buffers st s
    | None => buffers st s
    end.
Proof.
  unfold serialize_DictionaryIndexes. destruct (getter path) as [i|]; [|reflexivity].
  simpl. destruct (decide (s = i)) as [->|Hne].
  - rewrite fn_lookup_insert. reflexivity.
  - rewrite fn_lookup_insert_ne by congruence. reflexivity.
Qed.

Lemma elements_block_buffers getter offset path (st : State V) s :
  exists written,
    buffers (serialize_DictionaryElements dictionary_type getter offset path st) s
    = buffers st s ++ written
    /\ (getter path <> Some s -> written = []).
Proof.
  destruct (getter path) as [e|] eqn:Hg.
  - destruct (decide (offset = 0)) as [->|Hoff].
    + destruct (elements_block_written dictionary_type getter path st e Hg) as [Hb _].
      rewrite Hb. destruct (decide (s = e)) as [->|Hne].
      * eexists. split; [reflexivity|]. intros Hs. congruence.
      * exists []. rewrite app_nil_r. split; [reflexivity|]. reflexivity.
    + rewrite elements_block_skipped by (right; exact Hoff).
      exists []. rewrite app_nil_r. split; reflexivity.
  - rewrite elements_block_skipped by (left; exact Hg).
    exists []. rewrite app_nil_r. split; reflexivity.
Qed.

(** X7: bulk serialization only appends: every buffer keeps the bytes it
    held, and a buffer the getter gives for neither sub-path is left as it
    was. *)
Theorem serialize_only_appends getter offset limit path (st : State V) :
  (forall s, exists written,
     buffers (serializeBinaryBulkWithMultipleStreams dictionary_type indexes_type
                getter offset limit path st) s
     = buffers st s ++ written)
  /\ (forall s,
        getter (path ++ [DictionaryElements]) <> Some s ->
        getter (path ++ [DictionaryIndexes]) <> Some s ->
        buffers (serializeBinaryBulkWithMultipleStreams dictionary_type indexes_type
                   getter offset limit path st) s
        = buffers st s).
Proof.
  split.
  - intros s. rewrite serialize_blocks, indexes_block_buffers.
    destruct (elements_block_buffers getter offset (path ++ [DictionaryElements]) st s)
      as (w & Hw & _).
    destruct (getter (path ++ [DictionaryIndexes])) as [i|]; [|eauto].
    destruct (decide (s = i)) as [->|Hne]; [|eauto].
    rewrite Hw, <- app_assoc. eauto.
  - intros s He Hi. rewrite serialize_blocks, indexes_block_buffers.
    destruct (elements_block_buffers getter offset (path ++ [DictionaryElements]) st s)
      as (w & Hw & Hnil).
    rewrite (Hnil He), app_nil_r in Hw.
    destruct (getter (path ++ [DictionaryIndexes])) as [i|]; [|exact Hw].
    rewrite decide_False by congruence. exact Hw.
Qed.

(** X8: a pass in two chunks, the second starting at a row other than 0,
    leaves in every buffer the bytes a single pass over both ranges leaves,
    provided the index type writes the two ranges as it writes their union:
    the dictionary payload is not written again. *)
Theorem serialize_two_chunks getter k m path (st : State V) :
  k <> 0 ->
  Nested.serializeBinaryBulk indexes_type (getIndexes (column st)) 0 k
    ++ Nested.serializeBinaryBulk indexes_type (getIndexes (column st)) k m
  = Nested.serializeBinaryBulk indexes_type (getIndexes (column st)) 0 (k + m) ->
  forall s,
    buffers (serialize_chunks dictionary_type indexes_type getter
               [(0, k); (k, m)] path st) s
    = buffers (serializeBinaryBulkWithMultipleStreams dictionary_type indexes_type
                 getter 0 (k + m) path st) s.
Proof.
  intros Hk Hsplit s. unfold serialize_chunks. cbn [foldl fst snd].
  rewrite !serialize_blocks.
  rewrite (elements_block_skipped dictionary_type getter k) by (right; exact Hk).
  destruct (getter (path ++ [DictionaryIndexes])) as [i|] eqn:Hg.
  - repeat (rewrite indexes_block_buffers, Hg).
    rewrite !indexes_block_column, !elements_block_column.
    destruct (decide (s = i)) as [->|Hne]; [|reflexivity].
    rewrite decide_True by reflexivity.
    rewrite <- app_assoc, Hsplit. reflexivity.
  - repeat (rewrite indexes_block_buffers, Hg). reflexivity.
Qed.
End EnumerationAndProtocol.

(** ** Single values, row after row *)

Section SingleValues.
Context {V : Type} `{EqDecision V}.

Lemma insert_new_row (c : ColumnWithDictionary V) (x : V) :
  value_at (insert c x) (size c) = Some x.
Proof.
  unfold insert, size, value_at.
  destruct (uniqueInsert_spec (getUnique c) x)
    as [(_ & code & -> & _ & Hcode) | (_ & ->)]; simpl.
  - rewrite (list_lookup_middle (getIndexes c) [] code _ eq_refl). exact Hcode.
  - rewrite (list_lookup_middle (getIndexes c) [] _ _ eq_refl). simpl.
    apply list_lookup_middle. reflexivity.
Qed.

Lemma insert_store_le (c : ColumnWithDictionary V) (x : V) :
  length (getNestedColumn (getUnique c))
  <= length (getNestedColumn (getUnique (insert c x))).
Proof.
  unfold insert.
  destruct (uniqueInsert_spec (getUnique c) x) as [(_ & code & -> & _) | (_ & ->)];
    simpl; [lia|]. rewrite length_app. lia.
Qed.

Lemma foldl_insert_store_le (values : list V) (c : ColumnWithDictionary V) :
  length (getNestedColumn (getUnique c))
  <= length (getNestedColumn (getUnique (foldl insert c values))).
Proof.
  revert c; induction values as [|x values IH]; intros c; simpl; [lia|].
  etransitivity; [apply (insert_store_le c x) | apply IH].
Qed.

(** A single-value decode is the insertion of the decoded value when the
    store, the value included, has at most 2^w entries. *)
Lemma deserializeImpl_insert_step index_bits istr func (st : State V) (x : V)
      (rest : list byte) :
  func (getNestedColumn (getUnique (column st))) (buffers st istr)
  = Ok (getNestedColumn (getUnique (column st)) ++ [x], rest) ->
  length (getNestedColumn (getUnique (insert (column st) x))) <= 2 ^ index_bits ->
  exists st',
    deserializeImpl index_bits istr func st = Ok st'
    /\ column st' = insert (column st) x
    /\ (forall s, buffers st' s = if decide (s = istr) then rest else buffers st s).
Proof.
  intros Hfunc Hfit.
  rewrite (deserializeImpl_step index_bits istr func st x rest Hfunc).
  eexists. split; [reflexivity|]. simpl. split.
  - destruct st as [[[nested] indexes] bufs log]. simpl in *.
    unfold insert, uniqueInsert in *. simpl in *.
    destruct (list_find (x =.) nested) as [[i y]|] eqn:Hfind; simpl in *.
    + apply list_find_Some in Hfind as (Hi & _ & _). apply lookup_lt_Some in Hi.
      rewrite Nat.mod_small by lia. rewrite decide_True by lia. reflexivity.
    + rewrite length_app in Hfit. simpl in Hfit.
      rewrite Nat.mod_small by lia. rewrite decide_False by lia. reflexivity.
  - intros s. destruct (decide (s = istr)) as [->|Hne].
    + apply fn_lookup_insert.
    + apply fn_lookup_insert_ne. congruence.
Qed.

(** X9: a single-value decode that stages one value at the end of the
    store's nested column leaves exactly the column that inserting that value
    gives, provided the store with that value has at most 2^w entries, w the
    width of the index array: the staging in the store's own column and the
    trimming cancel out.  The source is left with what the decoder left,
    other buffers as they were. *)
Theorem deserializeImpl_is_insert index_bits istr func (st : State V) (x : V)
        (rest : list byte) :
  func (getNestedColumn (getUnique (column st))) (buffers st istr)
  = Ok (getNestedColumn (getUnique (column st)) ++ [x], rest) ->
  length (getNestedColumn (getUnique (insert (column st) x))) <= 2 ^ index_bits ->
  exists st',
    deserializeImpl index_bits istr func st = Ok st'
    /\ column st' = insert (column st) x
    /\ (forall s, buffers st' s = if decide (s = istr) then rest else buffers st s).
Proof. apply deserializeImpl_insert_step. Qed.

Lemma foldl_insert_well_formed (values : list V) (c : ColumnWithDictionary V) :
  well_formed c -> well_formed (foldl insert c values).
Proof.
  revert c; induction values as [|x values IH]; intros c Hc; [exact Hc|].
  simpl. apply IH. apply insert_spec. exact Hc.
Qed.

(** X10: decoding the encodings of a list of values one after another from
    one source gives the column that inserting the values in order gives,
    provided the store that results has at most 2^w entries, w the width of
    the index array; it leaves in the source what followed the values, and
    keeps a well-formed column well formed; from the empty column it is the
    column built by single-row inserts. *)
Theorem deserialize_rows_inserts index_bits (encode : V -> list byte) func istr
        (values : list V) (rest : list byte) (st : State V) :
  (forall col x tail, func col (encode x ++ tail) = Ok (col ++ [x], tail)) ->
  buffers st istr = concat (encode <$> values) ++ rest ->
  length (getNestedColumn (getUnique (foldl insert (column st) values)))
  <= 2 ^ index_bits ->
  exists st',
    deserialize_rows index_bits (length values) istr func st = Ok st'
    /\ column st' = foldl insert (column st) values
    /\ buffers st' istr = rest
    /\ (well_formed (column st) -> well_formed (column st'))
    /\ (column st = ColumnWithDictionary_empty -> column st' = insert_all values).
Proof.
  intros Hfunc. revert st; induction values as [|x values IH]; intros st Hbuf Hfit.
  - exists st. simpl in Hbuf. simpl.
    split; [reflexivity|]. split; [reflexivity|]. split; [exact Hbuf|].
    split; [tauto|]. intros ->. reflexivity.
  - simpl in Hbuf. rewrite <- app_assoc in Hbuf. simpl in Hfit.
    destruct (deserializeImpl_insert_step index_bits istr func st x
                (concat (encode <$> values) ++ rest)) as (st1 & Hst1 & Hcol1 & Hbuf1).
    { rewrite Hbuf. apply Hfunc. }
    { etransitivity; [apply (foldl_insert_store_le values)|exact Hfit]. }
    destruct (IH st1) as (st' & Hst' & Hcol' & Hrest & _ & _).
    { rewrite Hbuf1, decide_True by reflexivity. reflexivity. }
    { rewrite Hcol1. exact Hfit. }
    exists st'. cbn [length deserialize_rows]. rewrite Hst1. simpl.
    split; [exact Hst'|].
    assert (Hcol : column st' = foldl insert (column st) (x :: values)).
    { simpl. rewrite <- Hcol1. exact Hcol'. }
    split; [exact Hcol|]. split; [exact Hrest|]. split.
    + intros Hwf. rewrite Hcol. apply foldl_insert_well_formed. exact Hwf.
    + intros Hempty. rewrite Hcol, Hempty. reflexivity.
Qed.

(** X11: a row written by single-value serialization and read back by
    single-value deserialization into a column adds to that column a row
    standing for the same value, exactly as inserting the value does, and
    uses up the bytes written, provided the target's store with that value
    has at most 2^w entries, w the width of the target's index array; the
    element type's two methods are assumed to decode what they encode. *)
Theorem single_value_roundtrip index_bits (source target : ColumnWithDictionary V)
        (row_num : nat) (x : V) (stream : StreamId)
        (serialize_func : list V -> nat -> list byte)
        (deserialize_func : list V -> list byte -> Outcome (list V * list byte)) :
  value_at source row_num = Some x ->
  (forall col r col' tail,
     col !! r = Some x ->
     deserialize_func col' (serialize_func col r ++ tail) = Ok (col' ++ [x], tail)) ->
  length (getNestedColumn (getUnique (insert target x))) <= 2 ^ index_bits ->
  exists written read,
    serializeImpl row_num stream serialize_func (mkState source no_bytes [])
    = Ok written
    /\ deserializeImpl index_bits stream deserialize_func
         (mkState target (buffers written) []) = Ok read
    /\ column read = insert target x
    /\ value_at (column read) (size target) = Some x
    /\ buffers read stream = [].
Proof.
  intros Hx Hcodec Hfit. unfold value_at in Hx.
  destruct (getIndexes source !! row_num) as [code|] eqn:Hcode; [|discriminate Hx].
  simpl in Hx.
  unfold serializeImpl, getUInt. simpl. rewrite Hcode. simpl.
  eexists.
  destruct (deserializeImpl_insert_step index_bits stream deserialize_func
              (mkState target
                 (<[stream := no_bytes stream
                      ++ serialize_func (getNestedColumn (getUnique source)) code]>
                    no_bytes) []) x [])
    as (read & Hread & Hcol & Hbuf).
  { simpl. rewrite fn_lookup_insert.
    rewrite <- (app_nil_r (serialize_func _ _)). apply Hcodec. exact Hx. }
  { exact Hfit. }
  exists read. split; [reflexivity|]. simpl.
  split; [exact Hread|]. simpl in Hcol. split; [exact Hcol|].
  split; [rewrite Hcol; apply insert_new_row|].
  rewrite Hbuf, decide_True by reflexivity. reflexivity.
Qed.
End SingleValues.

Section FieldValues.
Context {V Field : Type} `{EqDecision V}.
Variable dictionary_type : Nested.DataType (list V) Field.

(** X12: a Field written by [serializeBinary] to an empty buffer and read
    back by [deserializeBinary] is the Field written; the buffer is empty
    again, the other buffers and the column are as they were, and both calls
    went to the element type.  The element type's two methods are assumed to
    decode what they encode. *)
Theorem field_roundtrip (field : Field) (stream : StreamId) (st : State V) :
  (forall tail,
     Nested.deserializeBinary dictionary_type
       (Nested.serializeBinary dictionary_type field ++ tail) = Ok (field, tail)) ->
  buffers st stream = [] ->
  exists st',
    deserializeBinary dictionary_type stream
      (serializeBinary dictionary_type field stream st) = Ok (field, st')
    /\ column st' = column st
    /\ (forall s, buffers st' s = buffers st s)
    /\ calls st' = calls st ++ [call_serializeBinary to_dictionary_type stream;
                                call_deserializeBinary to_dictionary_type stream].
Proof.
  intros Hcodec Hempty. unfold deserializeBinary, serializeBinary. simpl.
  rewrite fn_lookup_insert, Hempty. simpl.
  rewrite <- (app_nil_r (Nested.serializeBinary dictionary_type field)), Hcodec.
  simpl. eexists. split; [reflexivity|]. simpl. split; [reflexivity|].
  split; [|rewrite <- app_assoc; reflexivity].
  intros s. destruct (decide (s = stream)) as [->|Hne].
  - rewrite fn_lookup_insert. symmetry. exact Hempty.
  - rewrite !fn_lookup_insert_ne by congruence. reflexivity.
Qed.
End FieldValues.

(** ** A pass in two chunks, written and read *)

Section ChunkedRoundTrip.
Context {V Field : Type} `{EqDecision V}.
Variable dictionary_type : Nested.DataType (list V) Field.
Variable indexes_type : Nested.DataType (list nat) Field.

Lemma serialize_column getter offset limit path (st : State V) :
  column (serializeBinaryBulkWithMultipleStreams dictionary_type indexes_type
            getter offset limit path st) = column st.
Proof. rewrite serialize_blocks, indexes_block_column, elements_block_column. reflexivity. Qed.

(** What a pass in two chunks over a column, started on empty buffers,
    leaves in the buffers of the two sub-paths. *)
Lemma written_buffers_chunks getter path k m (c : ColumnWithDictionary V) e i :
  k <> 0 ->
  getter (path ++ [DictionaryElements]) = Some e ->
  getter (path ++ [DictionaryIndexes]) = Some i ->
  let payload := le_bytes 8 (to_UInt64 (length (getNestedColumn (getUnique c))))
                   ++ Nested.serializeBinaryBulk dictionary_type
                        (getNestedColumn (getUnique c)) 0 0 in
  let codes := Nested.serializeBinaryBulk indexes_type (getIndexes c) 0 k
                 ++ Nested.serializeBinaryBulk indexes_type (getIndexes c) k m in
  let written :=
    serialize_chunks dictionary_type indexes_type getter [(0, k); (k, m)] path
                     (mkState c no_bytes []) in
  buffers written e = payload ++ (if decide (e = i) then codes else [])
  /\ (e <> i -> buffers written i = codes).
Proof.
  intros Hk He Hi payload codes written. subst written.
  unfold serialize_chunks. cbn [foldl fst snd].
  destruct (written_buffers dictionary_type indexes_type getter path k c e i He Hi)
    as (Hbe & Hbi & _). cbv zeta in Hbe, Hbi. fold payload in Hbe.
  rewrite (serialize_blocks dictionary_type indexes_type getter k m).
  rewrite (elements_block_skipped dictionary_type getter k) by (right; exact Hk).
  split.
  - rewrite indexes_block_buffers, Hi, serialize_column. cbn [column].
    destruct (decide (e = i)) as [<-|Hne].
    + rewrite Hbe. subst codes. rewrite <- !app_assoc. reflexivity.
    + exact Hbe.
  - intros Hne. rewrite indexes_block_buffers, Hi, serialize_column. cbn [column].
    rewrite decide_True by reflexivity. rewrite (Hbi Hne). reflexivity.
Qed.

(** X13: a column built by single-row inserts, written in two chunks (rows
    [0, k) with k > 0, then [m] rows from row k) and read back in two calls
    with limits k and m into a freshly materialized column, is the column
    written: the second call finds the column non-empty, leaves the
    dictionary alone and appends the remaining codes.  The nested types are
    assumed to decode what they encode, the index type chunk by chunk. *)
Theorem chunked_roundtrip (values : list V) getter path e i (k m : nat) :
  let c := insert_all values in
  let nested := getNestedColumn (getUnique c) in
  let written :=
    serialize_chunks dictionary_type indexes_type getter [(0, k); (k, m)] path
                     (mkState c no_bytes []) in
  0 < k -> k <= length values ->
  getter (path ++ [DictionaryElements]) = Some e ->
  getter (path ++ [DictionaryIndexes]) = Some i ->
  (Z.of_nat (length nested) < 2 ^ 64)%Z ->
  (forall rest,
     Nested.deserializeBinaryBulk dictionary_type []
       (Nested.serializeBinaryBulk dictionary_type nested 0 0 ++ rest)
       (length nested) = Ok (nested, rest)) ->
  (forall rest,
     Nested.deserializeBinaryBulk indexes_type []
       (Nested.serializeBinaryBulk indexes_type (getIndexes c) 0 k ++ rest) k
     = Ok (take k (getIndexes c), rest)) ->
  (forall rest,
     Nested.deserializeBinaryBulk indexes_type (take k (getIndexes c))
       (Nested.serializeBinaryBulk indexes_type (getIndexes c) k m ++ rest) m
     = Ok (getIndexes c, rest)) ->
  exists st1 st2,
    deserializeBinaryBulkWithMultipleStreams dictionary_type indexes_type
      getter k path (mkState ColumnWithDictionary_empty (buffers written) []) = Ok st1
    /\ deserializeBinaryBulkWithMultipleStreams dictionary_type indexes_type
         getter m path st1 = Ok st2
    /\ size (column st1) = k
    /\ column st2 = c
    /\ (forall j, value_at (column st2) j = values !! j).
Proof.
  intros c nested written Hk Hkn He Hi Hsize Hdict Hidx1 Hidx2.
  destruct (insert_all_spec values) as ([Hnd _] & Hrows & Hval).
  fold c in Hnd, Hrows, Hval. fold nested in Hnd.
  destruct (written_buffers_chunks getter path k m c e i ltac:(lia) He Hi)
    as (Hbe & Hbi).
  fold written in Hbe, Hbi. fold nested in Hbe. cbv zeta in Hbe, Hbi.
  set (codes1 := Nested.serializeBinaryBulk indexes_type (getIndexes c) 0 k) in *.
  set (codes2 := Nested.serializeBinaryBulk indexes_type (getIndexes c) k m) in *.
  set (tail := if decide (e = i) then codes1 ++ codes2 else []) in *.
  assert (Htake : take 8 (buffers written e) = le_bytes 8 (to_UInt64 (length nested))).
  { rewrite Hbe, <- !app_assoc. apply take_app_length'. symmetry. apply length_le_bytes. }
  assert (Hdrop : drop 8 (buffers written e)
                  = Nested.serializeBinaryBulk dictionary_type nested 0 0 ++ tail).
  { rewrite Hbe, <- !app_assoc. apply drop_app_length'. symmetry. apply length_le_bytes. }
  assert (Hcount : Z.to_nat (le_value (take 8 (buffers written e))) = length nested).
  { rewrite Htake, le_value_UInt64. apply to_UInt64_small. exact Hsize. }
  (* the first call *)
  destruct (read_elements_read dictionary_type getter (path ++ [DictionaryElements])
              (mkState ColumnWithDictionary_empty (buffers written) []) e nested tail)
    as (s1 & codes & Hread1 & Hins & Hix1 & Hb1 & _).
  { exact He. }
  { reflexivity. }
  { simpl. rewrite Hbe, !length_app, length_le_bytes. lia. }
  { simpl. rewrite Hcount, Hdrop. apply Hdict. }
  simpl in Hins, Hix1, Hb1.
  destruct (uniqueInsertRangeFrom_empty nested Hnd) as (codes' & Hins').
  rewrite Hins' in Hins. injection Hins as Hunique1 _.
  assert (Hsource : buffers s1 i = codes1 ++ codes2).
  { rewrite Hb1. subst tail. destruct (decide (i = e)) as [->|Hne].
    - rewrite decide_True by reflexivity. reflexivity.
    - apply Hbi. congruence. }
  destruct (read_indexes_read indexes_type getter k (path ++ [DictionaryIndexes])
              s1 i (take k (getIndexes c)) codes2)
    as (st1 & Hread2 & Hix2 & Hunique2 & Hb2 & _).
  { exact Hi. }
  { rewrite Hix1, Hsource. apply Hidx1. }
  assert (Hsize1 : size (column st1) = k).
  { unfold size. rewrite Hix2, length_take. fold (size c). lia. }
  (* the second call *)
  assert (Hskip : deserialize_DictionaryElements dictionary_type getter
                    (path ++ [DictionaryElements]) st1 = Ok st1).
  { apply read_elements_skipped. right. unfold empty.
    apply bool_decide_eq_false_2. lia. }
  destruct (read_indexes_read indexes_type getter m (path ++ [DictionaryIndexes])
              st1 i (getIndexes c) [])
    as (st2 & Hread3 & Hix3 & Hunique3 & _).
  { exact Hi. }
  { rewrite Hix2, Hb2, decide_True by reflexivity.
    rewrite <- (app_nil_r codes2). apply Hidx2. }
  exists st1, st2.
  split; [rewrite deserialize_blocks, Hread1; exact Hread2|].
  split; [rewrite deserialize_blocks, Hskip; exact Hread3|].
  split; [exact Hsize1|].
  assert (Hcol : column st2 = c).
  { destruct (column st2) as [u2 ix2]. simpl in *. subst ix2.
    rewrite Hunique3, Hunique2, <- Hunique1.
    subst nested. destruct c as [[n] ix]. reflexivity. }
  split; [exact Hcol|]. rewrite Hcol. exact Hval.
Qed.
End ChunkedRoundTrip.

(** ** The further properties on the scenario *)

Lemma getter_used_on_enumerated_paths_witness :
  serializeBinaryBulkWithMultipleStreams UInt8_elements UInt8_indexes
    two_streams 0 4 [] abac_state
  = serializeBinaryBulkWithMultipleStreams UInt8_elements UInt8_indexes
      (fun path => match path with [] => Some 7 | _ => two_streams path end)
      0 4 [] abac_state.
Proof.
  apply (getter_used_on_enumerated_paths UInt8_elements UInt8_indexes
           (fun p => [p]) (fun p => [p]) two_streams
           (fun path => match path with [] => Some 7 | _ => two_streams path end)
           0 4 [] abac_state).
  - intros p. apply list_elem_of_singleton. reflexivity.
  - intros p. apply list_elem_of_singleton. reflexivity.
  - intros p Hp. destruct p; [|reflexivity].
    apply list_elem_of_In in Hp. simpl in Hp.
    destruct Hp as [E | [E | []]]; discriminate E.
Defined.

Lemma serialize_only_appends_witness :
  buffers (serializeBinaryBulkWithMultipleStreams UInt8_elements UInt8_indexes
             two_streams 0 4 [] abac_state) 5
  = buffers abac_state 5.
Proof.
  apply (serialize_only_appends UInt8_elements UInt8_indexes
           two_streams 0 4 [] abac_state).
  - vm_compute. congruence.
  - vm_compute. congruence.
Defined.

Lemma serialize_two_chunks_witness :
  buffers (serialize_chunks UInt8_elements UInt8_indexes two_streams
             [(0, 2); (2, 2)] [] abac_state) 1
  = buffers (serializeBinaryBulkWithMultipleStreams UInt8_elements UInt8_indexes
               two_streams 0 (2 + 2) [] abac_state) 1.
Proof.
  apply (serialize_two_chunks UInt8_elements UInt8_indexes two_streams 2 2 []
                              abac_state).
  - lia.
  - vm_compute. reflexivity.
Defined.

Lemma deserializeImpl_is_insert_witness :
  exists st',
    deserializeImpl 8 0 UInt8_deserialize_value
      (mkState (insert_all rows_abac) (fun _ => [100; 98]%Z) []) = Ok st'
    /\ column st' = insert (insert_all rows_abac) 100%Z.
Proof.
  destruct (deserializeImpl_is_insert 8 0 UInt8_deserialize_value
              (mkState (insert_all rows_abac) (fun _ => [100; 98]%Z) [])
              100%Z [98%Z] ltac:(vm_compute; reflexivity) ltac:(vm_compute; lia))
    as (st' & Hst' & Hcol & _).
  exists st'. split; [exact Hst' | exact Hcol].
Defined.

Lemma deserialize_rows_inserts_witness :
  exists st',
    deserialize_rows 8 4 0 UInt8_deserialize_value
      (mkState ColumnWithDictionary_empty (fun _ => [97; 98; 97; 99; 100]%Z) [])
    = Ok st'
    /\ column st' = insert_all rows_abac
    /\ buffers st' 0 = [100%Z].
Proof.
  destruct (deserialize_rows_inserts 8 (fun x => [x]) UInt8_deserialize_value 0
              rows_abac [100%Z]
              (mkState ColumnWithDictionary_empty
                       (fun _ => [97; 98; 97; 99; 100]%Z) [])
              ltac:(intros col x tail; reflexivity)
              ltac:(vm_compute; reflexivity)
              ltac:(vm_compute; lia))
    as (st' & Hst' & _ & Hbuf & _ & Hcol).
  exists st'. split; [exact Hst'|]. split; [apply Hcol; reflexivity | exact Hbuf].
Defined.

Lemma single_value_roundtrip_witness :
  exists written read,
    serializeImpl 3 0 UInt8_serialize_value
                  (mkState (insert_all rows_abac) no_bytes []) = Ok written
    /\ deserializeImpl 8 0 UInt8_deserialize_value
         (mkState ColumnWithDictionary_empty (buffers written) []) = Ok read
    /\ value_at (column read) 0 = Some 99%Z.
Proof.
  assert (Hx : value_at (insert_all rows_abac) 3 = Some 99%Z)
    by (vm_compute; reflexivity).
  assert (Hfit : length (getNestedColumn
                           (getUnique (insert ColumnWithDictionary_empty 99%Z)))
                 <= 2 ^ 8) by (vm_compute; lia).
  destruct (single_value_roundtrip 8 (insert_all rows_abac) ColumnWithDictionary_empty
              3 99%Z 0 UInt8_serialize_value UInt8_deserialize_value Hx)
    as (written & read & Hwritten & Hread & _ & Hval & _).
  { intros col r col' tail Hr. unfold UInt8_serialize_value, byte in *. rewrite Hr.
    reflexivity. }
  { exact Hfit. }
  exists written, read. split; [exact Hwritten|]. split; [exact Hread | exact Hval].
Defined.

Lemma field_roundtrip_witness :
  exists st',
    deserializeBinary UInt8_elements 0 (serializeBinary UInt8_elements 7%Z 0 abac_state)
    = Ok (7%Z, st')
    /\ column st' = column abac_state.
Proof.
  destruct (field_roundtrip UInt8_elements 7%Z 0 abac_state
              ltac:(intros tail; vm_compute; reflexivity)
              ltac:(vm_compute; reflexivity))
    as (st' & Hst' & Hcol & _).
  exists st'. split; [exact Hst' | exact Hcol].
Defined.

Lemma chunked_roundtrip_witness :
  exists st1 st2,
    deserializeBinaryBulkWithMultipleStreams UInt8_elements UInt8_indexes
      two_streams 2 []
      (mkState ColumnWithDictionary_empty
         (buffers (serialize_chunks UInt8_elements UInt8_indexes two_streams
                     [(0, 2); (2, 2)] [] (mkState (insert_all rows_abac) no_bytes [])))
         []) = Ok st1
    /\ deserializeBinaryBulkWithMultipleStreams UInt8_elements UInt8_indexes
         two_streams 2 [] st1 = Ok st2
    /\ column st2 = insert_all rows_abac.
Proof.
  destruct (chunked_roundtrip UInt8_elements UInt8_indexes rows_abac two_streams []
              0 1 2 2
              ltac:(lia) ltac:(vm_compute; lia)
              ltac:(vm_compute; reflexivity) ltac:(vm_compute; reflexivity)
              ltac:(vm_compute; reflexivity)
              ltac:(intros rest; vm_compute; reflexivity)
              ltac:(intros rest; vm_compute; reflexivity)
              ltac:(intros rest; vm_compute; reflexivity))
    as (st1 & st2 & H1 & H2 & _ & Hcol & _).
  exists st1, st2. split; [exact H1|]. split; [exact H2 | exact Hcol].
Defined.

(** ** Reading only one of the two sub-paths *)

Section PartialReads.
Context {V Field : Type} `{EqDecision V}.
Variable dictionary_type : Nested.DataType (list V) Field.
Variable indexes_type : Nested.DataType (list nat) Field.

Lemma read_elements_indexes getter path (st st1 : State V) :
  deserialize_DictionaryElements dictionary_type getter path st = Ok st1 ->
  getIndexes (column st1) = getIndexes (column st).
Proof.
  unfold deserialize_DictionaryElements, readIntBinary, call_deserialize.
  destruct (getter path) as [stream|]; [|intros [= <-]; reflexivity].
  destruct (empty (column st)); [|intros [= <-]; reflexivity].
  destruct (decide (8 <= length (buffers st stream))); simpl; [|discriminate].
  destruct (Nested.deserializeBinaryBulk _ _ _ _) as [[staged rest]| |]; simpl;
    try discriminate.
  destruct (uniqueInsertRangeFrom _ _ _ _) as [[u codes]| |]; simpl;
    try discriminate.
  intros [= <-]. reflexivity.
Qed.

(** X14: without a source for the DictionaryIndexes sub-path a call that
    returns leaves the index array as it was, whatever it read of the
    dictionary: a column that was empty still counts as empty, so the next
    call reads a dictionary payload again. *)
Theorem dictionary_only_read_keeps_rows getter limit path (st st' : State V) :
  getter (path ++ [DictionaryIndexes]) = None ->
  deserializeBinaryBulkWithMultipleStreams dictionary_type indexes_type
    getter limit path st = Ok st' ->
  getIndexes (column st') = getIndexes (column st)
  /\ empty (column st') = empty (column st).
Proof.
  intros Hi. rewrite deserialize_blocks.
  destruct (deserialize_DictionaryElements dictionary_type getter
              (path ++ [DictionaryElements]) st) as [st1| |] eqn:E1; simpl;
    try discriminate.
  unfold deserialize_DictionaryIndexes. rewrite Hi. intros [= <-].
  apply read_elements_indexes in E1.
  split; [exact E1|]. unfold empty, size. rewrite E1. reflexivity.
Qed.

(** X15: without a source for the DictionaryElements sub-path the store is
    left as it was and the index array takes what the index type decodes,
    unchecked: a decoded code that is not a row of the store makes a row
    that stands for no value. *)
Theorem indexes_only_read_unchecked getter limit path (st : State V)
        (i : StreamId) (indexes : list nat) (rest : list byte) :
  getter (path ++ [DictionaryElements]) = None ->
  getter (path ++ [DictionaryIndexes]) = Some i ->
  Nested.deserializeBinaryBulk indexes_type (getIndexes (column st))
    (buffers st i) limit = Ok (indexes, rest) ->
  exists st',
    deserializeBinaryBulkWithMultipleStreams dictionary_type indexes_type
      getter limit path st = Ok st'
    /\ getUnique (column st') = getUnique (column st)
    /\ getIndexes (column st') = indexes
    /\ (forall row code,
          indexes !! row = Some code ->
          length (getNestedColumn (getUnique (column st))) <= code ->
          value_at (column st') row = None).
Proof.
  intros He Hi Hdec. rewrite deserialize_blocks.
  rewrite read_elements_skipped by (left; exact He). simpl.
  destruct (read_indexes_read indexes_type getter limit (path ++ [DictionaryIndexes])
              st i indexes rest Hi Hdec) as (st' & Hst' & Hix & Hu & _).
  exists st'. split; [exact Hst'|]. split; [exact Hu|]. split; [exact Hix|].
  intros row code Hrow Hcode. unfold value_at. rewrite Hix, Hrow. simpl.
  rewrite Hu. apply lookup_ge_None. exact Hcode.
Qed.
End PartialReads.

Lemma dictionary_only_read_keeps_rows_witness :
  exists st',
    deserializeBinaryBulkWithMultipleStreams UInt8_elements UInt8_indexes
      (fun path => match path with [DictionaryElements] => Some 0 | _ => None end)
      4 [] abac_source = Ok st'
    /\ getNestedColumn (getUnique (column st')) = [97; 98; 99]%Z
    /\ empty (column st') = true.
Proof.
  destruct (deserializeBinaryBulkWithMultipleStreams UInt8_elements UInt8_indexes
              (fun path => match path with [DictionaryElements] => Some 0 | _ => None end)
              4 [] abac_source) as [st'| |] eqn:Hst'.
  - exists st'. split; [reflexivity|]. split.
    + vm_compute in Hst'. injection Hst' as <-. reflexivity.
    + destruct (dictionary_only_read_keeps_rows UInt8_elements UInt8_indexes
                  (fun path => match path with
                               | [DictionaryElements] => Some 0
                               | _ => None
                               end)
                  4 [] abac_source st' eq_refl Hst') as (_ & Hempty).
      exact Hempty.
  - vm_compute in Hst'. discriminate Hst'.
  - vm_compute in Hst'. discriminate Hst'.
Defined.

Lemma indexes_only_read_unchecked_witness :
  exists st',
    deserializeBinaryBulkWithMultipleStreams UInt8_elements UInt8_indexes
      (fun path => match path with [DictionaryIndexes] => Some 1 | _ => None end)
      4 [] abac_source = Ok st'
    /\ getIndexes (column st') = [0; 1; 0; 2]
    /\ value_at (column st') 3 = None.
Proof.
  assert (Hdec : Nested.deserializeBinaryBulk UInt8_indexes
                   (getIndexes (column abac_source)) (buffers abac_source 1) 4
                 = Ok ([0; 1; 0; 2], []))
    by (vm_compute; reflexivity).
  destruct (indexes_only_read_unchecked UInt8_elements UInt8_indexes
              (fun path => match path with [DictionaryIndexes] => Some 1 | _ => None end)
              4 [] abac_source 1 [0; 1; 0; 2] [] eq_refl eq_refl Hdec)
    as (st' & Hst' & _ & Hix & Hnone).
  exists st'. split; [exact Hst'|]. split; [exact Hix|].
  apply (Hnone 3 2); [reflexivity | vm_compute; lia].
Defined.
